(** * The minimum-Xmx search of tools/run_on_app.py

    A shallow embedding of [find_min_xmx], of [run_with_options] from its
    checks to the exit code it answers, of the other commands of [main]
    and of the helpers of tools/utils.py they use, followed by the
    properties of the bisection that the specification states and by
    further properties of the code.

    Python integers are unbounded and are modelled by [Z]; the script is
    Python 2 (it uses [iteritems] and imports only [print_function] from
    [__future__]), so [/] on two integers is floor division, which is
    [Z.div] for the positive divisor 2.  Strings are [string].

    A call ends as a value of [termination]: it returns, raises, fails an
    assertion or exits.  [run_with_options] raises where the script does
    (the version of Java, the application, the compiler and its build, the
    reports after a run), and the search and the tracking loop pass on
    what it raises.  What is not in the two source files (the compiler
    launcher [toolhelper.run], the tables of the applications, the output
    of [java -version], the log of the memory use, the segment report,
    the revision and the archive helper) is a field of a record the
    development is parametric in. *)

From Stdlib Require Import ZArith List String Ascii Bool Lia.
From Stdlib Require Import DecimalString DecimalZ DecimalPos.
Import ListNotations.

Local Open Scope string_scope.
Local Open Scope list_scope.
Local Open Scope Z_scope.

(** ** Python values *)

(** ['%s' % n] for an integer [n]. *)
Definition str (n : Z) : string := NilZero.string_of_int (Z.to_int n).

(** [needle in haystack] on strings. *)
Fixpoint contains (needle haystack : string) : bool :=
  String.prefix needle haystack ||
  match haystack with
  | EmptyString => false
  | String _ rest => contains needle rest
  end.

(** Truth value of an optional integer option of optparse: an option that
    was not given is [None], and both [None] and [0] are false. *)
Definition truthy (v : option Z) : bool :=
  match v with
  | Some n => negb (n =? 0)
  | None => false
  end.

(** Truth value of an optional string option: [None] and [''] are false. *)
Definition truthy_string (v : option string) : bool :=
  match v with
  | Some EmptyString => false
  | Some _ => true
  | None => false
  end.

(** [x in l] on a list of integers. *)
Definition in_codes (x : Z) (l : list Z) : bool := existsb (Z.eqb x) l.

(** ** Constants of run_on_app.py *)

Definition OOM_EXIT_CODE : Z := 42.
Definition TIMEOUT_KILL_CODE : Z := -9.
Definition FIND_MIN_XMX_FILE : string := "find_min_xmx_results".
Definition FIND_MIN_XMX_DIR : string := "find_min_xmx".

(** ** The options read by the search *)

Record Options : Type := {
  compiler : option string;
  app : option string;
  version : option string;
  max_memory : option Z;
  find_min_xmx_min_memory : option Z;
  find_min_xmx_max_memory : option Z;
  find_min_xmx_range_size : Z;
  find_min_xmx_archive : bool;
  dump_args_file : option string
}.

(** ** How functions end, and the rest of the options *)

(** How a function of the script ends: with a value, with an exception,
    with a failed assertion or, after [exit], with an exit status. *)
Inductive termination (A : Type) : Type :=
| Returned (value : A)
| Raised (message : string)
| AssertionFailed
| SystemExit (status : Z).

Arguments Returned {A} _.
Arguments Raised {A} _.
Arguments AssertionFailed {A}.
Arguments SystemExit {A} _.

(** The fields of the parsed options object that the search does not read.
    Together with an [Options] they are the one object the script calls
    [options]. *)
Module Flag.
Record t : Type := {
  type : option string;
  compiler_build : string;
  run_all : bool;
  expect_oom : bool;
  timeout : Z;
  find_min_xmx : bool;
  track_time_in_memory : bool;
  track_time_in_memory_min : option Z;
  track_time_in_memory_max : option Z;
  track_time_in_memory_increment : Z;
  ignore_java_version : bool;
  print_memoryuse : option string;
  print_dexsegments : option string
}.
End Flag.

Definition TYPES : list string := ["dex"; "deploy"; "proguarded"].
Definition APPS : list string :=
  ["gmscore"; "nest"; "youtube"; "gmail"; "chrome"; "r8"; "iosched"].
Definition COMPILERS : list string := ["d8"; "r8"].
Definition COMPILER_BUILDS : list string := ["full"; "lib"].

(** The modules with the tables of the applications. *)
Inductive data_module : Type :=
| gmscore_data | nest_data | youtube_data | chrome_data
| gmail_data | r8_data | iosched_data.

(** [sep.join(l)]. *)
Fixpoint join (sep : string) (l : list string) : string :=
  match l with
  | [] => ""
  | [x] => x
  | x :: rest => (x ++ sep ++ join sep rest)%string
  end.

(** [v or d] for an optional string [v]. *)
Definition or_default (v : option string) (d : string) : string :=
  if truthy_string v then match v with Some s => s | None => d end else d.

(** ** get_version_and_data and get_type *)

Definition get_version_and_data (options : Options)
  : termination (string * data_module) :=
  let app_is a := match app options with
                  | Some x => String.eqb x a
                  | None => false
                  end in
  if app_is "gmscore" then Returned (or_default (version options) "v9", gmscore_data)
  else if app_is "nest"
  then Returned (or_default (version options) "20180926", nest_data)
  else if app_is "youtube"
  then Returned (or_default (version options) "12.22", youtube_data)
  else if app_is "chrome"
  then Returned (or_default (version options) "180917", chrome_data)
  else if app_is "gmail"
  then Returned (or_default (version options) "170604.16", gmail_data)
  else if app_is "r8" then Returned (or_default (version options) "cf", r8_data)
  else if app_is "iosched"
  then Returned (or_default (version options) "2019", iosched_data)
  else Raised ("You need to specify '--app=" ++ join "|" APPS ++ "'")%string.

Definition get_type (options : Options) (flags : Flag.t) : string :=
  if negb (truthy_string (Flag.type flags)) then
    match compiler options with
    | Some c => if String.eqb c "r8" then "deploy" else "proguarded"
    | None => "proguarded"
    end
  else match Flag.type flags with Some t => t | None => "" end.

(** * utils.py *)

(** ** Archive names *)

(** [s[0:stop]] for a string and an integer that may be negative: a
    negative [stop] counts from the end, and both ends are clamped. *)
Definition slice_to (s : string) (stop : Z) : string :=
  let n := Z.of_nat (String.length s) in
  let stop := if stop <? 0 then Z.max 0 (stop + n) else Z.min stop n in
  substring 0 (Z.to_nat stop) s.

(** The name [create_archive] gives the archive of [name] and returns. *)
Definition create_archive (name : string) : string :=
  (name ++ ".tar.gz")%string.

Definition extract_dir (filename : string) : string :=
  slice_to filename
    (Z.of_nat (String.length filename) - Z.of_nat (String.length ".tar.gz")).

(** ** grep_memoryuse *)

Definition is_digit (c : ascii) : bool :=
  let n := nat_of_ascii c in (48 <=? n)%nat && (n <=? 57)%nat.

Definition is_letter (c : ascii) : bool :=
  let n := nat_of_ascii c in
  ((65 <=? n)%nat && (n <=? 90)%nat) || ((97 <=? n)%nat && (n <=? 122)%nat).

(** The class [[ \t]]. *)
Definition is_blank (c : ascii) : bool :=
  let n := nat_of_ascii c in (n =? 32)%nat || (n =? 9)%nat.

(** The longest prefix of characters of a class, and what follows it: how
    a greedy [[...]*] matches when the next thing to match starts with a
    character outside the class or may be empty. *)
Fixpoint span (p : ascii -> bool) (s : string) : string * string :=
  match s with
  | EmptyString => (EmptyString, EmptyString)
  | String c rest =>
      if p c then let '(taken, others) := span p rest in (String c taken, others)
      else (EmptyString, s)
  end.

(** [s] without the prefix [p], when it starts with it. *)
Fixpoint strip_prefix (p s : string) : option string :=
  match p, s with
  | EmptyString, _ => Some s
  | String a p', String b s' =>
      if Ascii.eqb a b then strip_prefix p' s' else None
  | String _ _, EmptyString => None
  end.

(** The two groups of the pattern of [re_vmhwm] searched in a line: the
    line must start with [VmHWM:]; blanks are skipped, the first group is
    the run of digits that follows, which must not be empty; blanks are
    skipped again and the second group is the run of letters that
    follows, which may be empty. *)
Definition search_vmhwm (line : string) : option (string * string) :=
  match strip_prefix "VmHWM:" line with
  | None => None
  | Some after_name =>
      let '(_, after_blanks) := span is_blank after_name in
      let '(digits, after_digits) := span is_digit after_blanks in
      match digits with
      | EmptyString => None
      | _ =>
          let '(_, after_blanks') := span is_blank after_digits in
          let '(unit, _) := span is_letter after_blanks' in
          Some (digits, unit)
      end
  end.

(** [int(digits)] for a string of decimal digits. *)
Definition int_of_digits (digits : string) : Z :=
  match NilEmpty.uint_of_string digits with
  | Some d => Z.of_uint d
  | None => 0
  end.

(** The loop over the lines of the log, with the result so far. *)
Fixpoint grep_memoryuse_lines (logfile : string) (lines : list string)
    (result : option Z) : termination Z :=
  match lines with
  | [] =>
      match result with
      | None => Raised ("No memory usage found in log: " ++ logfile)%string
      | Some bytes => Returned bytes
      end
  | line :: rest =>
      match search_vmhwm line with
      | None => grep_memoryuse_lines logfile rest result
      | Some (digits, unit) =>
          let value := int_of_digits digits in
          if String.eqb unit "kB"
          then grep_memoryuse_lines logfile rest (Some (value * 1024))
          else if negb (String.eqb unit "")
          then Raised ("Unrecognized unit in memory usage log: " ++ unit)%string
          else grep_memoryuse_lines logfile rest (Some value)
      end
  end.

(** [grep_memoryuse logfile], on the lines of the file. *)
Definition grep_memoryuse (logfile : string) (lines : list string)
  : termination Z :=
  grep_memoryuse_lines logfile lines None.

(** A line of /proc/<pid>/status with the peak resident set size. *)
Definition vmhwm_line (kilobytes : Z) : string :=
  ("VmHWM:" ++ String (ascii_of_nat 9) (str kilobytes ++ " kB"
     ++ String (ascii_of_nat 10) ""))%string.

(** ** RunCmd *)

Definition newline : string := String (ascii_of_nat 10) "".
Definition escape : string := String (ascii_of_nat 27) "".

Definition is_space (c : ascii) : bool :=
  let n := nat_of_ascii c in
  (n =? 32)%nat || ((9 <=? n)%nat && (n <=? 13)%nat).

(** [s.rstrip()]. *)
Fixpoint rstrip (s : string) : string :=
  match s with
  | EmptyString => EmptyString
  | String c rest =>
      match rstrip rest with
      | EmptyString => if is_space c then EmptyString else String c EmptyString
      | kept => String c kept
      end
  end.

(** [print(s)]: what is written to stdout. *)
Definition print (s : string) : string := (s ++ newline)%string.

Definition CRED : string := (escape ++ "[91m")%string.
Definition CEND : string := (escape ++ "[0m")%string.

Definition Warn (message : string) : list string :=
  [print (CRED ++ message ++ CEND)].

(** [PrintCmd] for a command given as a list; [env] lists the variables in
    the order the dictionary is iterated, and is empty for [None]. *)
Definition PrintCmd (cmd : list string) (env : list (string * string))
    (quiet : bool) : list string :=
  if quiet then []
  else
    let cmd := join " " cmd in
    match env with
    | [] => [print ("Running: " ++ cmd)]
    | _ =>
        let quote := String (ascii_of_nat 34) "" in
        let env := join " "
          (map (fun '(x, y) => (x ++ "=" ++ quote ++ y ++ quote)%string) env) in
        [print ("Running: " ++ env ++ " " ++ cmd)]
    end.

Module ProgressLogger.

Definition CLEAR_LINE : string := (escape ++ "[K")%string.
Definition UP : string := (escape ++ "[F")%string.

Record t : Type := {
  count : Z;
  has_printed : bool;
  quiet : bool
}.

Definition init (quiet : bool) : t :=
  {| count := 0; has_printed := false; quiet := quiet |}.

(** [log]: the logger afterwards and what is written. *)
Definition log (self : t) (text : string) : t * list string :=
  let erase :=
    if quiet self && has_printed self then [(UP ++ CLEAR_LINE)%string]
    else [] in
  let text :=
    if quiet self && (140 <? String.length text)%nat
    then (substring 0 140 text ++ "...")%string
    else text in
  ({| count := count self; has_printed := true; quiet := quiet self |},
   erase ++ [print text]).

Definition done (self : t) : list string :=
  if quiet self && has_printed self
  then [(UP ++ CLEAR_LINE)%string; print ""; UP]
  else [].

End ProgressLogger.

(** Whether a line of output marks a failure. *)
Definition failure_line (stripped : string) : bool :=
  contains "AssertionError:" stripped
  || contains "CompilationError:" stripped
  || contains "CompilationFailedException:" stripped
  || contains "Compilation failed" stripped.

Inductive run_cmd_result : Type :=
| CalledProcessError (returncode : option Z) (cmd : list string)
    (output : string)
| Stdout (lines : list string).

(** The reading loop of [RunCmd]: [lines] are the results of the calls of
    [readline] to come, the empty string standing for the end of the
    output, as does the end of the list; [exit_code] is what [poll]
    answers then. *)
Fixpoint RunCmd_loop (cmd : list string) (lines : list string)
    (exit_code : option Z) (stdout : list string)
    (logger : ProgressLogger.t) (failed : bool) (written : list string)
  : run_cmd_result * list string :=
  let finish :=
    let written := written ++ ProgressLogger.done logger in
    if truthy exit_code || failed
    then (CalledProcessError exit_code cmd (join newline stdout),
          written ++ flat_map Warn stdout)
    else (Stdout stdout, written) in
  match lines with
  | [] => finish
  | EmptyString :: _ => finish
  | line :: rest =>
      let stripped := rstrip line in
      let '(logger', out) := ProgressLogger.log logger stripped in
      RunCmd_loop cmd rest exit_code (stdout ++ [stripped]) logger'
        (failed || failure_line stripped) (written ++ out)
  end.

Definition RunCmd (cmd : list string) (env_vars : list (string * string))
    (quiet : bool) (lines : list string) (exit_code : option Z)
  : run_cmd_result * list string :=
  RunCmd_loop cmd lines exit_code [] (ProgressLogger.init quiet) false
    (PrintCmd cmd env_vars quiet).

(** ** check_java_version *)

(** [s] after the first occurrence of [needle], if there is one. *)
Fixpoint after_first (needle s : string) : option string :=
  match strip_prefix needle s with
  | Some rest => Some rest
  | None =>
      match s with
      | EmptyString => None
      | String _ s' => after_first needle s'
      end
  end.

Definition double_quote : ascii := ascii_of_nat 34.

(** The characters before the first double quote, if there is one. *)
Fixpoint until_quote (s : string) : option string :=
  match s with
  | EmptyString => None
  | String c rest =>
      if Ascii.eqb c double_quote then Some EmptyString
      else option_map (String c) (until_quote rest)
  end.

(** [check_java_version], on the output of [java -version]: the pattern
    is [openjdk version], a double quote, characters other than the double
    quote, a double quote; its leftmost match starts at the first
    occurrence of the words, and there is none when no double quote
    follows that occurrence. *)
Definition check_java_version (output : string) : termination unit :=
  let no_version :=
    Raised ("Can't check java version: no version string in output of "
            ++ "'java -version': '" ++ output ++ "'")%string in
  match after_first ("openjdk version " ++ String double_quote "") output with
  | None => no_version
  | Some rest =>
      match until_quote rest with
      | None => no_version
      | Some version =>
          if contains "google" version
          then Raised ("Do not use google JVM for benchmarking: " ++ version)%string
          else Returned tt
      end
  end.

(** ** Collaborators *)

Record Collaborators (World : Type) : Type := {
  (** What [java -version] prints. *)
  java_version_output : World -> string;
  (** Whether the tables of a module list the version and, for it, the
      type; when they do not, [run_with_options] prints and returns 1. *)
  known_configuration : data_module -> string -> string -> bool;
  (** [toolhelper.run] with the given extra JVM arguments: the exit code of
      the process and the text it left in the stderr file. *)
  toolhelper_run :
    Options -> Flag.t -> list string -> World -> Z * string * World;
  (** Writing the argument file of [--dump-args-file]. *)
  write_args_file : Options -> World -> World;
  (** The name and the lines of the file [options.track_memory_to_file]. *)
  memory_use_log : World -> string * list string;
  (** [utils.print_dexsegments] on the dex files of the output. *)
  print_dexsegments : string -> World -> termination unit;
  (** [utils.get_HEAD_sha1]. *)
  get_HEAD_sha1 : World -> termination string;
  (** The archiving of lines 276-286: the destination is joined from
      [utils.R8_TEST_RESULTS_BUCKET] and the given components and the text
      is handed to [utils.archive_value]; utils.py defines neither of the
      two, so nothing is assumed about how this ends. *)
  archive_value :
    string -> list (option string) -> string -> World
    -> termination unit * World
}.

Arguments java_version_output {World} _ _.
Arguments known_configuration {World} _ _ _ _.
Arguments toolhelper_run {World} _ _ _ _ _.
Arguments write_args_file {World} _ _ _.
Arguments memory_use_log {World} _ _.
Arguments print_dexsegments {World} _ _ _.
Arguments get_HEAD_sha1 {World} _ _.
Arguments archive_value {World} _ _ _ _ _.

(** ** What the search prints and calls, in order *)

(** [RunWithOptions extra_args exit_code] records a call of
    [run_with_options] with the exit code it answered and
    [RunWithOptionsRaised extra_args] a call that was left by an
    exception; the other events
    are the lines the search prints and the archived text. *)
Inductive event : Type :=
| PrintCandidate (working not_working next_candidate : Z)
| RunWithOptions (extra_args : list string) (exit_code : Z)
| RunWithOptionsRaised (extra_args : list string)
| PrintRunningTook
| PrintNonOOMTimeoutError
| PrintTimeout
| PrintFoundRange (not_working working : Z)
| ArchiveValue (text : string).

(** The outcome variant of the specification, and the reading of an exit
    code that the branches of [find_min_xmx] implement. *)
Inductive Outcome : Type :=
| Success
| OutOfMemory
| Timeout
| OtherFailure (code : Z).

Definition outcome_of_exit_code (exit_code : Z) : Outcome :=
  if exit_code =? 0 then Success
  else if negb (in_codes exit_code [OOM_EXIT_CODE; TIMEOUT_KILL_CODE])
  then OtherFailure exit_code
  else if exit_code =? TIMEOUT_KILL_CODE then Timeout
  else OutOfMemory.

Section Search.

Context {World : Type}.
Variable ext : Collaborators World.

(** ** run_with_options *)

(** The head of [run_with_options]: a heap ceiling is added unless the
    caller passed one. *)
Definition with_default_xmx (options : Options) (extra_args : list string)
  : list string :=
  if existsb (contains "-Xmx") extra_args then extra_args
  else match max_memory options with
       | Some m => if m =? 0 then extra_args ++ ["-Xmx8G"]
                   else extra_args ++ [("-Xmx" ++ str m ++ "M")%string]
       | None => extra_args ++ ["-Xmx8G"]
       end.

(** Lines 534-543: the exit code of a failed run is replaced by
    [OOM_EXIT_CODE] when the stderr text mentions the Java error. *)
Definition failure_exit_code (exit_code : Z) (stderr_text : string) : Z :=
  if contains "java.lang.OutOfMemoryError" stderr_text then OOM_EXIT_CODE
  else exit_code.

(** The checks of lines 402-414, before anything is looked up in the
    tables: the Java version unless it is ignored, the application, the
    compiler and the build of the compiler. *)
Definition checks (options : Options) (flags : Flag.t) (w : World)
  : termination (string * data_module) :=
  match (if Flag.ignore_java_version flags then Returned tt
         else check_java_version (java_version_output ext w)) with
  | Returned _ =>
      match get_version_and_data options with
      | Returned found =>
          if negb (match compiler options with
                   | Some c => existsb (String.eqb c) COMPILERS
                   | None => false
                   end)
          then Raised ("You need to specify '--compiler="
                       ++ join "|" COMPILERS ++ "'")%string
          else if negb (existsb (String.eqb (Flag.compiler_build flags))
                          COMPILER_BUILDS)
          then Raised ("You need to specify '--compiler-build="
                       ++ join "|" COMPILER_BUILDS ++ "'")%string
          else Returned found
      | Raised message => Raised message
      | AssertionFailed => AssertionFailed
      | SystemExit status => SystemExit status
      end
  | Raised message => Raised message
  | AssertionFailed => AssertionFailed
  | SystemExit status => SystemExit status
  end.

(** Lines 550-557, after a run that did not fail. *)
Definition after_run (flags : Flag.t) (w : World) : termination Z * World :=
  match Flag.print_dexsegments flags with
  | Some prefix =>
      if truthy_string (Some prefix) then
        match print_dexsegments ext prefix w with
        | Returned _ => (Returned 0, w)
        | Raised message => (Raised message, w)
        | AssertionFailed => (AssertionFailed, w)
        | SystemExit status => (SystemExit status, w)
        end
      else (Returned 0, w)
  | None => (Returned 0, w)
  end.

(** [run_with_options], lines 389-557, as the search and the tracking loop
    call it, with no positional arguments and without [--golem]: the
    ceiling, the checks, the return of 1 for a configuration the tables
    do not have, then either the arguments file or the launch.  The
    arguments of the tool, which lines 431-496 put together from the
    tables, reach [toolhelper.run] only and are part of that collaborator.
    A failed launch answers at once; after any other the reports that
    were asked for may raise. *)
Definition run_with_options (options : Options) (flags : Flag.t)
    (extra_args : list string) (w : World) : termination Z * World :=
  let extra_args := with_default_xmx options extra_args in
  match checks options flags w with
  | Returned (version_id, data) =>
      if negb (known_configuration ext data version_id (get_type options flags))
      then (Returned 1, w)
      else if truthy_string (dump_args_file options)
      then after_run flags (write_args_file ext options w)
      else if negb (String.eqb (Flag.compiler_build flags) "full")
              && negb (String.eqb (Flag.compiler_build flags) "lib")
      then (AssertionFailed, w)
      else
        let '(exit_code, stderr_text, w') :=
          toolhelper_run ext options flags extra_args w in
        if negb (exit_code =? 0)
        then (Returned (failure_exit_code exit_code stderr_text), w')
        else if truthy_string (Flag.print_memoryuse flags) then
          match grep_memoryuse (fst (memory_use_log ext w'))
                  (snd (memory_use_log ext w')) with
          | Returned _ => after_run flags w'
          | Raised message => (Raised message, w')
          | AssertionFailed => (AssertionFailed, w')
          | SystemExit status => (SystemExit status, w')
          end
        else after_run flags w'
  | Raised message => (Raised message, w)
  | AssertionFailed => (AssertionFailed, w)
  | SystemExit status => (SystemExit status, w)
  end.

(** ** find_min_xmx *)

Record search_state : Type := {
  working : Z;
  not_working : Z;
  exit_code : Z;
  world : World;
  printed : list event
}.

(** How a block of statements ends: it falls through, returns, fails the
    assertion of the search, or is left by what a call ended with. *)
Inductive completion : Type :=
| Normal (s : search_state)
| Return (status : Z) (s : search_state)
| AssertionError (s : search_state)
| Abort (how : termination unit) (s : search_state).

(** An ending other than a value, passed on. *)
Definition passed_on {A : Type} (t : termination A) : termination unit :=
  match t with
  | Returned _ => Returned tt
  | Raised message => Raised message
  | AssertionFailed => AssertionFailed
  | SystemExit status => SystemExit status
  end.

Definition initial_not_working (options : Options) : Z :=
  if truthy (find_min_xmx_min_memory options)
  then match find_min_xmx_min_memory options with Some m => m | None => 0 end
  else match compiler options with
       | Some c => if String.eqb c "d8" then 128 else 1024
       | None => 1024
       end.

Definition initial_working (options : Options) : Z :=
  if truthy (find_min_xmx_max_memory options)
  then match find_min_xmx_max_memory options with Some m => m | None => 0 end
  else 1024 * 8.

Definition next_candidate (s : search_state) : Z :=
  working s - (working s - not_working s) / 2.

Definition xmx_argument (ceiling : Z) : string :=
  ("-Xmx" ++ str ceiling ++ "M")%string.

(** The loop condition [working - not_working > range]. *)
Definition loop_test (options : Options) (s : search_state) : bool :=
  find_min_xmx_range_size options <? working s - not_working s.

(** The rest of the loop body, lines 255-267, once the attempt has
    answered an exit code. *)
Definition after_attempt (s : search_state) (code : Z) (w : World)
  : completion :=
  let candidate := next_candidate s in
  let extra_args := [xmx_argument candidate] in
  let out := printed s ++
             [PrintCandidate (working s) (not_working s) candidate;
              RunWithOptions extra_args code;
              PrintRunningTook] in
  if negb (code =? 0) && negb (in_codes code [OOM_EXIT_CODE; TIMEOUT_KILL_CODE])
  then Return 2 {| working := working s; not_working := not_working s;
                   exit_code := code; world := w;
                   printed := out ++ [PrintNonOOMTimeoutError] |}
  else if code =? 0
  then Normal {| working := candidate; not_working := not_working s;
                 exit_code := code; world := w; printed := out |}
  else if code =? TIMEOUT_KILL_CODE
  then Normal {| working := working s; not_working := candidate;
                 exit_code := code; world := w;
                 printed := out ++ [PrintTimeout] |}
  else if code =? OOM_EXIT_CODE
  then Normal {| working := working s; not_working := candidate;
                 exit_code := code; world := w; printed := out |}
  else AssertionError {| working := working s; not_working := not_working s;
                         exit_code := code; world := w; printed := out |}.

(** One execution of the loop body, lines 248-267.  An attempt that does
    not answer leaves the search with the candidate printed. *)
Definition loop_body (options : Options) (flags : Flag.t) (s : search_state)
  : completion :=
  let candidate := next_candidate s in
  let extra_args := [xmx_argument candidate] in
  match run_with_options options flags extra_args (world s) with
  | (Returned code, w) => after_attempt s code w
  | (how, w) =>
      Abort (passed_on how)
        {| working := working s; not_working := not_working s;
           exit_code := exit_code s; world := w;
           printed := printed s ++
             [PrintCandidate (working s) (not_working s) candidate;
              RunWithOptionsRaised extra_args] |}
  end.

(** The while loop, lines 247-267.  [None] means that [fuel] iterations
    were executed and the loop condition still holds. *)
Fixpoint while_loop (fuel : nat) (options : Options) (flags : Flag.t)
    (s : search_state) : option completion :=
  if loop_test options s then
    match fuel with
    | O => None
    | S fuel' =>
        match loop_body options flags s with
        | Normal s' => while_loop fuel' options flags s'
        | stopped => Some stopped
        end
    end
  else Some (Normal s).

Definition found_range (s : search_state) : string :=
  ("Found range: " ++ str (not_working s) ++ " - " ++ str (working s))%string.

(** Lines 273-288: the archiving, on the state with the found range
    printed. *)
Definition archive (options : Options) (flags : Flag.t) (s : search_state)
  : completion :=
  match get_HEAD_sha1 ext (world s) with
  | Returned sha =>
      match get_version_and_data options with
      | Returned (version_id, _) =>
          let text := (found_range s ++ String (ascii_of_nat 10) "")%string in
          let destination :=
            [Some FIND_MIN_XMX_DIR; Some sha; compiler options;
             Some (Flag.compiler_build flags); app options; Some version_id;
             Some (get_type options flags)] in
          match archive_value ext FIND_MIN_XMX_FILE destination text
                  (world s) with
          | (Returned _, w) =>
              Return 0 {| working := working s; not_working := not_working s;
                          exit_code := exit_code s; world := w;
                          printed := printed s ++ [ArchiveValue text] |}
          | (how, w) =>
              Abort (passed_on how)
                {| working := working s; not_working := not_working s;
                   exit_code := exit_code s; world := w;
                   printed := printed s |}
          end
      | how => Abort (passed_on how) s
      end
  | how => Abort (passed_on how) s
  end.

(** Lines 269-288, after the loop. *)
Definition report (options : Options) (flags : Flag.t) (s : search_state)
  : completion :=
  if working s - not_working s <=? find_min_xmx_range_size options then
    let s1 := {| working := working s; not_working := not_working s;
                 exit_code := exit_code s; world := world s;
                 printed := printed s ++
                   [PrintFoundRange (not_working s) (working s)] |} in
    if find_min_xmx_archive options then archive options flags s1
    else Return 0 s1
  else AssertionError s.

Definition initial_state (options : Options) (w : World) : search_state :=
  {| working := initial_working options;
     not_working := initial_not_working options;
     exit_code := 0; world := w; printed := [] |}.

(** [find_min_xmx options args]. *)
Definition find_min_xmx (fuel : nat) (options : Options) (flags : Flag.t)
    (args : list string) (w : World) : option completion :=
  if negb (Nat.eqb (List.length args) 0)
  then Some (AssertionError (initial_state options w))
  else
    match while_loop fuel options flags (initial_state options w) with
    | None => None
    | Some (Normal s) => Some (report options flags s)
    | Some stopped => Some stopped
    end.

End Search.

Arguments working {World} _.
Arguments not_working {World} _.
Arguments exit_code {World} _.
Arguments world {World} _.
Arguments printed {World} _.

(** ** Reading the run *)

(** The state a completion carries. *)
Definition state_of {World : Type} (c : completion (World := World))
  : search_state (World := World) :=
  match c with
  | Normal s => s
  | Return _ s => s
  | AssertionError s => s
  | Abort _ s => s
  end.

Definition is_attempt (e : event) : bool :=
  match e with
  | RunWithOptions _ _ => true
  | RunWithOptionsRaised _ => true
  | _ => false
  end.

Definition is_found_range (e : event) : bool :=
  match e with PrintFoundRange _ _ => true | ArchiveValue _ => true | _ => false end.

(** Number of calls of [run_with_options] recorded in a log. *)
Definition attempts (out : list event) : nat :=
  List.length (filter is_attempt out).

Section Run.

Context {World : Type}.
Variable ext : Collaborators World.
Variable options : Options.
Variable flags : Flag.t.

Local Abbreviation state := (search_state (World := World)).

(** One attempt at a heap ceiling, as the loop body launches it. *)
Definition attempt (ceiling : Z) (w : World) : termination Z * World :=
  run_with_options ext options flags [xmx_argument ceiling] w.

(** One iteration: the loop condition holds and the body falls through. *)
Definition iteration (s s' : state) : Prop :=
  loop_test options s = true /\ loop_body ext options flags s = Normal s'.

(** States at the head of the loop after some number of iterations. *)
Inductive reaches (s0 : state) : state -> Prop :=
| reaches_start : reaches s0 s0
| reaches_next s s' : reaches s0 s -> iteration s s' -> reaches s0 s'.

(** [attempt] is monotonic with boundary [B]: it answers 0 from [B] on and
    one of the two failure codes of the search below [B]. *)
Definition monotonic (B : Z) : Prop :=
  forall ceiling w,
    (B <= ceiling -> fst (attempt ceiling w) = Returned 0) /\
    (ceiling < B ->
       fst (attempt ceiling w) = Returned OOM_EXIT_CODE \/
       fst (attempt ceiling w) = Returned TIMEOUT_KILL_CODE).

(** The classification of the attempts into success and the rest is
    monotonic with boundary [B]: an attempt answers 0 exactly from [B]
    on. *)
Definition succeeds_from (B : Z) : Prop :=
  forall ceiling w,
    (B <= ceiling -> fst (attempt ceiling w) = Returned 0) /\
    (ceiling < B -> fst (attempt ceiling w) <> Returned 0).

End Run.

(** The bound of the specification, [ceil (log2 (width / range))] for a
    positive width and a positive range, computed on integers: a ratio of
    at most 1 has a logarithm that is zero or negative. *)
Definition ceil_log2_ratio (width range : Z) : Z :=
  if width <=? range then - Z.log2 (range / width)
  else Z.log2_up ((width + range - 1) / range).

(** ** Processes on which the search is run in the examples *)

(** The ceiling [n] of an argument ['-Xmx<n>M']. *)
Definition ceiling_of_argument (arg : string) : option Z :=
  if String.prefix "-Xmx" arg then
    match NilZero.int_of_string
            (substring 4 (String.length arg - 5)%nat arg) with
    | Some d => Some (Z.of_int d)
    | None => None
    end
  else None.

(** What an OpenJDK prints for [java -version]. *)
Definition openjdk_output : string :=
  ("openjdk version " ++ String double_quote
     ("1.8.0_212" ++ String double_quote (String (ascii_of_nat 10)
        "OpenJDK Runtime Environment")))%string.

(** A compiler that needs [boundary] megabytes of heap: it exits with 0 when
    the ceiling is at least [boundary] and otherwise with 1, leaving the
    Java error on stderr. *)
Definition needs_memory (boundary : Z) : Collaborators unit := {|
  java_version_output := fun _ => openjdk_output;
  toolhelper_run := fun _ _ extra_args w =>
    match extra_args with
    | [arg] =>
        match ceiling_of_argument arg with
        | Some c =>
            if boundary <=? c then (0, "", w)
            else (1, "java.lang.OutOfMemoryError: Java heap space", w)
        | None => (1, "", w)
        end
    | _ => (1, "", w)
    end;
  known_configuration := fun _ _ _ => true;
  write_args_file := fun _ w => w;
  memory_use_log := fun _ => ("memory_use.tmp", []);
  print_dexsegments := fun _ _ => Returned tt;
  get_HEAD_sha1 := fun _ => Returned "0123abc";
  archive_value := fun _ _ _ w => (Returned tt, w)
|}.

(** A compiler that needs [boundary] megabytes of heap and exits with
    [code], leaving nothing on stderr, when it gets less. *)
Definition fails_below (boundary code : Z) : Collaborators unit := {|
  java_version_output := fun _ => openjdk_output;
  toolhelper_run := fun _ _ extra_args w =>
    match extra_args with
    | [arg] =>
        match ceiling_of_argument arg with
        | Some c => if boundary <=? c then (0, "", w) else (code, "", w)
        | None => (code, "", w)
        end
    | _ => (code, "", w)
    end;
  known_configuration := fun _ _ _ => true;
  write_args_file := fun _ w => w;
  memory_use_log := fun _ => ("memory_use.tmp", []);
  print_dexsegments := fun _ _ => Returned tt;
  get_HEAD_sha1 := fun _ => Returned "0123abc";
  archive_value := fun _ _ _ w => (Returned tt, w)
|}.

(** The collaborators with another compiler launched in place of theirs. *)
Definition with_toolhelper_run {World : Type} (ext : Collaborators World)
    (run : Options -> Flag.t -> list string -> World -> Z * string * World)
  : Collaborators World := {|
  java_version_output := java_version_output ext;
  toolhelper_run := run;
  known_configuration := known_configuration ext;
  write_args_file := write_args_file ext;
  memory_use_log := memory_use_log ext;
  print_dexsegments := print_dexsegments ext;
  get_HEAD_sha1 := get_HEAD_sha1 ext;
  archive_value := archive_value ext
|}.

(** A scripted process: the world is the list of exit codes and stderr
    texts of the launches to come; when the script is over the process
    exits with 0. *)
Definition scripted : Collaborators (list (Z * string)) := {|
  java_version_output := fun _ => openjdk_output;
  toolhelper_run := fun _ _ _ w =>
    match w with
    | [] => (0, "", [])
    | (code, text) :: rest => (code, text, rest)
    end;
  known_configuration := fun _ _ _ => true;
  write_args_file := fun _ w => w;
  memory_use_log := fun _ => ("memory_use.tmp", []);
  print_dexsegments := fun _ _ => Returned tt;
  get_HEAD_sha1 := fun _ => Returned "0123abc";
  archive_value := fun _ _ _ w => (Returned tt, w)
|}.

(** Options of a search with the given compiler, overrides and range. *)
Definition search_options (c : string) (lower upper : option Z)
    (range : Z) : Options := {|
  compiler := Some c;
  app := Some "r8";
  version := None;
  max_memory := None;
  find_min_xmx_min_memory := lower;
  find_min_xmx_max_memory := upper;
  find_min_xmx_range_size := range;
  find_min_xmx_archive := false;
  dump_args_file := None
|}.

(** Options of a search that archives its result and names no
    application. *)
Definition archive_options (lower upper : option Z) (range : Z)
  : Options := {|
  compiler := Some "r8";
  app := None;
  version := None;
  max_memory := None;
  find_min_xmx_min_memory := lower;
  find_min_xmx_max_memory := upper;
  find_min_xmx_range_size := range;
  find_min_xmx_archive := true;
  dump_args_file := None
|}.

(** The options with the two memory overrides replaced. *)
Definition override (options : Options) (lower upper : option Z)
  : Options := {|
  compiler := compiler options;
  app := app options;
  version := version options;
  max_memory := max_memory options;
  find_min_xmx_min_memory := lower;
  find_min_xmx_max_memory := upper;
  find_min_xmx_range_size := find_min_xmx_range_size options;
  find_min_xmx_archive := find_min_xmx_archive options;
  dump_args_file := dump_args_file options
|}.

(** What one execution of the loop body prints before it looks at the exit
    code. *)
Definition body_log {World : Type} (s : search_state (World := World))
    (code : Z) : list event :=
  printed s ++
  [PrintCandidate (working s) (not_working s) (next_candidate s);
   RunWithOptions [xmx_argument (next_candidate s)] code;
   PrintRunningTook].

(** Whether an exit code makes the search give up: it is neither 0 nor one
    of the two codes the search interprets. *)
Definition other_failure (code : Z) : Prop :=
  code <> 0 /\ code <> OOM_EXIT_CODE /\ code <> TIMEOUT_KILL_CODE.

(** The ceilings the search printed as its candidates, in order. *)
Fixpoint candidates (out : list event) : list Z :=
  match out with
  | [] => []
  | PrintCandidate _ _ c :: rest => c :: candidates rest
  | _ :: rest => candidates rest
  end.

(** The exit codes the calls of [run_with_options] answered, in order. *)
Fixpoint answers (out : list event) : list Z :=
  match out with
  | [] => []
  | RunWithOptions _ code :: rest => code :: answers rest
  | _ :: rest => answers rest
  end.

(** The options with [--dump-args-file] set. *)
Definition dumping (options : Options) (file : string) : Options := {|
  compiler := compiler options;
  app := app options;
  version := version options;
  max_memory := max_memory options;
  find_min_xmx_min_memory := find_min_xmx_min_memory options;
  find_min_xmx_max_memory := find_min_xmx_max_memory options;
  find_min_xmx_range_size := find_min_xmx_range_size options;
  find_min_xmx_archive := find_min_xmx_archive options;
  dump_args_file := Some file
|}.

(** Tables that list no version: every run answers 1 before it launches. *)
Definition unlisted : Collaborators unit := {|
  java_version_output := fun _ => openjdk_output;
  toolhelper_run := fun _ _ _ w => (0, "", w);
  known_configuration := fun _ _ _ => false;
  write_args_file := fun _ w => w;
  memory_use_log := fun _ => ("memory_use.tmp", []);
  print_dexsegments := fun _ _ => Returned tt;
  get_HEAD_sha1 := fun _ => Returned "0123abc";
  archive_value := fun _ _ _ w => (Returned tt, w)
|}.

(** ** get_permutations and run_all *)

Definition DISABLED_PERMUTATIONS : list (string * string * string) :=
  [("youtube", "13.37", "deploy")].

Definition data_providers : list (string * data_module) :=
  [("gmscore", gmscore_data); ("nest", nest_data); ("youtube", youtube_data);
   ("chrome", chrome_data); ("gmail", gmail_data); ("r8", r8_data);
   ("iosched", iosched_data)].

Definition same_permutation (p q : string * string * string) : bool :=
  let '(a, v, t) := p in
  let '(a', v', t') := q in
  String.eqb a a' && String.eqb v v' && String.eqb t t'.

(** [(app, version, type) not in DISABLED_PERMUTATIONS]. *)
Definition enabled (p : string * string * string) : bool :=
  negb (existsb (same_permutation p) DISABLED_PERMUTATIONS).

(** The permutations in the order the generator yields them.  [VERSIONS]
    gives, for a module, its versions and the types of each version in
    the order the dictionaries are iterated; [providers] is
    [data_providers] in its iteration order. *)
Definition get_permutations
    (VERSIONS : data_module -> list (string * list string))
    (providers : list (string * data_module))
  : list (string * string * string * bool) :=
  flat_map (fun '(app, data) =>
    flat_map (fun '(version, types) =>
      flat_map (fun type =>
        if enabled (app, version, type)
        then [(app, version, type, false); (app, version, type, true)]
        else [])
        types)
      (VERSIONS data))
    providers.

(** The options of one permutation: [copy.copy(options)] with the five
    fields assigned. *)
Definition fixed_options (options : Options) (name version compiler : string)
  : Options := {|
  compiler := Some compiler;
  app := Some name;
  version := Some version;
  max_memory := max_memory options;
  find_min_xmx_min_memory := find_min_xmx_min_memory options;
  find_min_xmx_max_memory := find_min_xmx_max_memory options;
  find_min_xmx_range_size := find_min_xmx_range_size options;
  find_min_xmx_archive := find_min_xmx_archive options;
  dump_args_file := dump_args_file options
|}.

Definition fixed_flags (flags : Flag.t) (compiler_build type : string)
  : Flag.t := {|
  Flag.type := Some type;
  Flag.compiler_build := compiler_build;
  Flag.run_all := Flag.run_all flags;
  Flag.expect_oom := Flag.expect_oom flags;
  Flag.timeout := Flag.timeout flags;
  Flag.find_min_xmx := Flag.find_min_xmx flags;
  Flag.track_time_in_memory := Flag.track_time_in_memory flags;
  Flag.track_time_in_memory_min := Flag.track_time_in_memory_min flags;
  Flag.track_time_in_memory_max := Flag.track_time_in_memory_max flags;
  Flag.track_time_in_memory_increment :=
    Flag.track_time_in_memory_increment flags;
  Flag.ignore_java_version := Flag.ignore_java_version flags;
  Flag.print_memoryuse := Flag.print_memoryuse flags;
  Flag.print_dexsegments := Flag.print_dexsegments flags
|}.

(** What [run_all] prints and runs: the permutation with the compiler and
    build chosen for it, the exit code of its run, and whether the failure
    line was printed. *)
Record execution : Type := {
  executed : string * string * string * bool;
  with_compiler : string;
  with_build : string;
  answered : Z
}.

Section Commands.

Context {World : Type}.
Variable ext : Collaborators World.

(** [run_with_options] as [main] and [run_all] call it: on the whole
    options object and with positional arguments, which the tool
    receives.  It stands for the calls that answer an exit code. *)
Variable run : Options -> Flag.t -> list string -> World -> Z * World.

(** The loop of [run_all] over the permutations still to run. *)
Fixpoint run_all_loop (options : Options) (flags : Flag.t)
    (permutations : list (string * string * string * bool))
    (w : World) (out : list execution)
  : termination unit * World * list execution :=
  match permutations with
  | [] => (Returned tt, w, out)
  | (name, version, type, use_r8lib) :: rest =>
      let compiler := if String.eqb type "deploy" then "r8" else "d8" in
      let compiler_build := if use_r8lib then "lib" else "full" in
      let '(exit_code, w') :=
        run (fixed_options options name version compiler)
            (fixed_flags flags compiler_build type) [] w in
      let out' := out ++ [{| executed := (name, version, type, use_r8lib);
                             with_compiler := compiler;
                             with_build := compiler_build;
                             answered := exit_code |}] in
      if negb (exit_code =? 0) then (SystemExit exit_code, w', out')
      else run_all_loop options flags rest w' out'
  end.

Definition run_all (VERSIONS : data_module -> list (string * list string))
    (providers : list (string * data_module))
    (options : Options) (flags : Flag.t) (args : list string) (w : World)
  : termination unit * World * list execution :=
  if negb (Nat.eqb (List.length args) 0) then (AssertionFailed, w, [])
  else if negb (Nat.eqb (List.length APPS) (List.length providers))
  then (AssertionFailed, w, [])
  else run_all_loop options flags (get_permutations VERSIONS providers) w [].

(** ** track_time_in_memory *)

(** A row of the table: the ceiling, and whether a time was printed for it
    (the time of a failed run is printed as -1). *)
Inductive track_event : Type :=
| TrackHeader
| TrackRun (extra_args : list string) (exit_code : Z)
| TrackRow (current : Z) (timed : bool).

(** The loop of lines 325-332.  A run that does not answer ends it. *)
Fixpoint track_loop (fuel : nat) (options : Options) (flags : Flag.t)
    (current : Z) (w : World) (out : list track_event)
  : option (termination unit * World * list track_event) :=
  match Flag.track_time_in_memory_max flags with
  | None => Some (Returned tt, w, out)
  | Some maximum =>
      if current <=? maximum then
        match fuel with
        | O => None
        | S fuel' =>
            let extra_args := [xmx_argument current] in
            match run_with_options ext options flags extra_args w with
            | (Returned exit_code, w') =>
                track_loop fuel' options flags
                  (current + Flag.track_time_in_memory_increment flags) w'
                  (out ++ [TrackRun extra_args exit_code;
                           TrackRow current (exit_code =? 0)])
            | (how, w') => Some (passed_on how, w', out)
            end
        end
      else Some (Returned tt, w, out)
  end.

Definition track_time_in_memory (fuel : nat) (options : Options)
    (flags : Flag.t) (args : list string) (w : World)
  : option (termination Z * World * list track_event) :=
  if negb (Nat.eqb (List.length args) 0) then Some (AssertionFailed, w, [])
  else if negb (truthy (Flag.track_time_in_memory_min flags))
  then Some (Raised
    "You have to specify --track_time_in_memory_min when running with --track-time-in-memory",
    w, [])
  else if negb (truthy (Flag.track_time_in_memory_max flags))
  then Some (Raised
    "You have to specify --track_time_in_memory_max when running with --track-time-in-memory",
    w, [])
  else if Flag.track_time_in_memory_increment flags =? 0
  then Some (Raised
    "You have to specify --track_time_in_memory_increment when running with --track-time-in-memory",
    w, [])
  else
    let current :=
      match Flag.track_time_in_memory_min flags with
      | Some m => m
      | None => 0
      end in
    match track_loop fuel options flags current w [TrackHeader] with
    | None => None
    | Some (Returned _, w', out) => Some (Returned 0, w', out)
    | Some (Raised message, w', out) => Some (Raised message, w', out)
    | Some (AssertionFailed, w', out) => Some (AssertionFailed, w', out)
    | Some (SystemExit status, w', out) => Some (SystemExit status, w', out)
    end.

(** ** main *)

(** What the command that [main] chose printed and ran. *)
Inductive main_log : Type :=
| NothingRun
| RunAllLog (out : list execution)
| FindMinXmxLog (out : list event)
| TrackTimeLog (out : list track_event)
| RunLog (exit_code : Z).

(** [main], from the parsed options on.  The value is [None] for the
    [None] that [run_all] returns. *)
Definition main (VERSIONS : data_module -> list (string * list string))
    (providers : list (string * data_module))
    (fuel : nat) (options : Options) (flags : Flag.t) (args : list string)
    (w : World) : option (termination (option Z) * World * main_log) :=
  if Flag.expect_oom flags && negb (truthy (max_memory options))
  then Some (Raised
    "You should only use --expect-oom if also specifying --max-memory",
    w, NothingRun)
  else if Flag.expect_oom flags && negb (Flag.timeout flags =? 0)
  then Some (Raised
    "You should not use --timeout when also specifying --expect-oom",
    w, NothingRun)
  else if Flag.find_min_xmx flags && Flag.track_time_in_memory flags
  then Some (Raised
    "You cannot both find the min xmx and track time at the same time",
    w, NothingRun)
  else if Flag.run_all flags then
    match run_all VERSIONS providers options flags args w with
    | (Returned _, w', out) => Some (Returned None, w', RunAllLog out)
    | (Raised m, w', out) => Some (Raised m, w', RunAllLog out)
    | (AssertionFailed, w', out) => Some (AssertionFailed, w', RunAllLog out)
    | (SystemExit c, w', out) => Some (SystemExit c, w', RunAllLog out)
    end
  else if Flag.find_min_xmx flags then
    match find_min_xmx ext fuel options flags args w with
    | None => None
    | Some (Normal s) =>
        Some (Returned None, world s, FindMinXmxLog (printed s))
    | Some (Return status s) =>
        Some (Returned (Some status), world s, FindMinXmxLog (printed s))
    | Some (AssertionError s) =>
        Some (AssertionFailed, world s, FindMinXmxLog (printed s))
    | Some (Abort (Returned _) s) =>
        Some (Returned None, world s, FindMinXmxLog (printed s))
    | Some (Abort (Raised message) s) =>
        Some (Raised message, world s, FindMinXmxLog (printed s))
    | Some (Abort AssertionFailed s) =>
        Some (AssertionFailed, world s, FindMinXmxLog (printed s))
    | Some (Abort (SystemExit status) s) =>
        Some (SystemExit status, world s, FindMinXmxLog (printed s))
    end
  else if Flag.track_time_in_memory flags then
    match track_time_in_memory fuel options flags args w with
    | None => None
    | Some (Returned v, w', out) => Some (Returned (Some v), w', TrackTimeLog out)
    | Some (Raised m, w', out) => Some (Raised m, w', TrackTimeLog out)
    | Some (AssertionFailed, w', out) =>
        Some (AssertionFailed, w', TrackTimeLog out)
    | Some (SystemExit c, w', out) => Some (SystemExit c, w', TrackTimeLog out)
    end
  else
    let '(exit_code, w') := run options flags args w in
    let exit_code' :=
      if Flag.expect_oom flags
      then (if exit_code =? OOM_EXIT_CODE then 0 else 1)
      else exit_code in
    Some (Returned (Some exit_code'), w', RunLog exit_code).

End Commands.

(** * Reading the runs of the other commands *)

(** The rows of the table of [track_time_in_memory]. *)
Fixpoint rows (out : list track_event) : list (Z * bool) :=
  match out with
  | [] => []
  | TrackRow current timed :: rest => (current, timed) :: rows rest
  | _ :: rest => rows rest
  end.

(** The part of the log for runs at the given ceilings with the given
    answers: the call, then the row. *)
Definition track_table (runs : list (Z * Z)) : list track_event :=
  flat_map (fun run => [TrackRun [xmx_argument (fst run)] (snd run);
                        TrackRow (fst run) (snd run =? 0)]) runs.

(** Every run at a ceiling answers an exit code. *)
Definition runs_answer {World : Type} (ext : Collaborators World)
    (options : Options) (flags : Flag.t) : Prop :=
  forall ceiling w,
    exists code,
      fst (run_with_options ext options flags [xmx_argument ceiling] w)
        = Returned code.

(** [start], [start + step], ... : [n] values. *)
Fixpoint progression (start step : Z) (n : nat) : list Z :=
  match n with
  | O => []
  | S k => start :: progression (start + step) step k
  end.

(** Flags of a plain run, and of [--track-time-in-memory] with the given
    ends and increment. *)
Definition plain_flags : Flag.t := {|
  Flag.type := None;
  Flag.compiler_build := "lib";
  Flag.run_all := false;
  Flag.expect_oom := false;
  Flag.timeout := 0;
  Flag.find_min_xmx := false;
  Flag.track_time_in_memory := false;
  Flag.track_time_in_memory_min := None;
  Flag.track_time_in_memory_max := None;
  Flag.track_time_in_memory_increment := 32;
  Flag.ignore_java_version := false;
  Flag.print_memoryuse := None;
  Flag.print_dexsegments := None
|}.

Definition tracking (lower upper : option Z) (increment : Z) : Flag.t := {|
  Flag.type := None;
  Flag.compiler_build := "lib";
  Flag.run_all := false;
  Flag.expect_oom := false;
  Flag.timeout := 0;
  Flag.find_min_xmx := false;
  Flag.track_time_in_memory := true;
  Flag.track_time_in_memory_min := lower;
  Flag.track_time_in_memory_max := upper;
  Flag.track_time_in_memory_increment := increment;
  Flag.ignore_java_version := false;
  Flag.print_memoryuse := None;
  Flag.print_dexsegments := None
|}.





(** Whether every character of a string is in a class. *)
Fixpoint all_chars (p : ascii -> bool) (s : string) : bool :=
  match s with
  | EmptyString => true
  | String c rest => p c && all_chars p rest
  end.

(** Lines that [grep_memoryuse] reads without raising: they do not match,
    or their unit is [kB] or empty. *)
Definition readable (line : string) : bool :=
  match search_vmhwm line with
  | None => true
  | Some (_, unit) => String.eqb unit "kB" || String.eqb unit ""
  end.

Definition unmatched (line : string) : bool :=
  match search_vmhwm line with
  | None => true
  | Some _ => false
  end.

(** * Properties *)

(** ** Arithmetic of the candidate *)

Lemma half_bounds (d : Z) : 2 <= d -> 1 <= d / 2 /\ d / 2 < d.
Proof.
  intros Hd. split.
  - apply Z.div_le_lower_bound; lia.
  - apply Z.div_lt; lia.
Qed.

Lemma half_nonneg (d : Z) : 0 <= d -> 0 <= d / 2 <= d.
Proof.
  intros Hd. split.
  - apply Z.div_pos; lia.
  - apply Z.div_le_upper_bound; lia.
Qed.

(** Both halves of a width bounded by [2 * m] are bounded by [m]. *)
Lemma halves_le (d m : Z) : d <= 2 * m -> d / 2 <= m /\ d - d / 2 <= m.
Proof.
  intros Hd.
  pose proof (Z.div_mod d 2 ltac:(lia)) as E.
  pose proof (Z.mod_pos_bound d 2 ltac:(lia)) as B.
  lia.
Qed.

(** ** The bound of the specification *)

Lemma ceil_div_le (w r m : Z) :
  0 < r -> ((w + r - 1) / r <= m <-> w <= r * m).
Proof.
  intros Hr. split; intros H.
  - pose proof (Z.div_mod (w + r - 1) r ltac:(lia)) as E.
    pose proof (Z.mod_pos_bound (w + r - 1) r Hr) as B.
    nia.
  - apply Z.lt_succ_r. apply Z.div_lt_upper_bound; nia.
Qed.

(** [ceil_log2_ratio w r] is the least integer [k] with [w / r <= 2 ^ k]:
    for an exponent that is not negative this reads [w <= r * 2 ^ k]. *)
Lemma ceil_log2_ratio_le (w r : Z) (k : Z) :
  0 < w -> 0 < r -> 0 <= k ->
  (ceil_log2_ratio w r <= k <-> w <= r * 2 ^ k).
Proof.
  intros Hw Hr Hk. unfold ceil_log2_ratio.
  assert (Hp : 1 <= 2 ^ k) by (apply Z.lt_pred_le, Z.pow_pos_nonneg; lia).
  destruct (Z.leb_spec w r) as [Hle | Hgt].
  - pose proof (Z.log2_nonneg (r / w)) as Hl. split; intros _; nia.
  - assert (Hc : 0 < (w + r - 1) / r).
    { apply Z.div_str_pos. lia. }
    rewrite <- (Z.log2_up_le_pow2 _ _ Hc).
    apply ceil_div_le. exact Hr.
Qed.

(** For a negative exponent [- j] it reads [w * 2 ^ j <= r]. *)
Lemma ceil_log2_ratio_le_neg (w r : Z) (j : Z) :
  0 < w -> 0 < r -> 0 < j ->
  (ceil_log2_ratio w r <= - j <-> w * 2 ^ j <= r).
Proof.
  intros Hw Hr Hj. unfold ceil_log2_ratio.
  assert (Hp : 2 <= 2 ^ j).
  { change 2 with (2 ^ 1) at 1. apply Z.pow_le_mono_r; lia. }
  destruct (Z.leb_spec w r) as [Hle | Hgt].
  - assert (Hq : 0 < r / w) by (apply Z.div_str_pos; lia).
    rewrite <- Z.opp_le_mono.
    rewrite <- (Z.log2_le_pow2 _ _ Hq).
    split; intros H.
    + pose proof (Z.mul_div_le r w Hw). nia.
    + apply Z.div_le_lower_bound; lia.
  - pose proof (Z.log2_up_nonneg ((w + r - 1) / r)) as Hl.
    split; intros H; nia.
Qed.

(** ** The loop body *)

Section Body.

Context {World : Type}.
Variable ext : Collaborators World.
Variable options : Options.
Variable flags : Flag.t.

Local Abbreviation state := (search_state (World := World)).
Local Abbreviation range_size := (find_min_xmx_range_size options).

Lemma loop_test_true (s : state) :
  loop_test options s = true <-> range_size < working s - not_working s.
Proof. unfold loop_test. apply Z.ltb_lt. Qed.

Lemma loop_test_false (s : state) :
  loop_test options s = false <-> working s - not_working s <= range_size.
Proof. unfold loop_test. rewrite Z.ltb_ge. reflexivity. Qed.

(** The four ways through the rest of the body, by the exit code the
    attempt answered. *)
Lemma after_attempt_cases (s : state) (code : Z) (w : World) :
  (code = 0 /\
   after_attempt s code w =
     Normal {| working := next_candidate s; not_working := not_working s;
               exit_code := 0; world := w;
               printed := body_log s 0 |})
  \/
  (code = TIMEOUT_KILL_CODE /\
   after_attempt s code w =
     Normal {| working := working s; not_working := next_candidate s;
               exit_code := TIMEOUT_KILL_CODE; world := w;
               printed := body_log s TIMEOUT_KILL_CODE ++ [PrintTimeout] |})
  \/
  (code = OOM_EXIT_CODE /\
   after_attempt s code w =
     Normal {| working := working s; not_working := next_candidate s;
               exit_code := OOM_EXIT_CODE; world := w;
               printed := body_log s OOM_EXIT_CODE |})
  \/
  (other_failure code /\
   after_attempt s code w =
     Return 2 {| working := working s; not_working := not_working s;
                 exit_code := code; world := w;
                 printed := body_log s code ++ [PrintNonOOMTimeoutError] |}).
Proof.
  unfold after_attempt, body_log, other_failure.
  unfold in_codes, OOM_EXIT_CODE, TIMEOUT_KILL_CODE. cbn [existsb].
  destruct (Z.eqb_spec code 0) as [-> | H0].
  - left. split; reflexivity.
  - destruct (Z.eqb_spec code (-9)) as [-> | H9].
    + right; left. split; reflexivity.
    + destruct (Z.eqb_spec code 42) as [-> | H42].
      * right; right; left. split; reflexivity.
      * right; right; right. cbn. repeat split; assumption.
Qed.

(** The body after an attempt that answered. *)
Lemma loop_body_answered (s : state) (code : Z) :
  fst (attempt ext options flags (next_candidate s) (world s)) = Returned code ->
  loop_body ext options flags s =
  after_attempt s code
    (snd (attempt ext options flags (next_candidate s) (world s))).
Proof.
  unfold loop_body, attempt.
  destruct (run_with_options ext options flags
              [xmx_argument (next_candidate s)] (world s)) as [how w].
  cbn [fst snd]. intros ->. reflexivity.
Qed.

(** The body after an attempt that did not answer: the search is left
    with what the attempt ended with, the bounds untouched. *)
Lemma loop_body_unanswered (s : state) :
  (forall code,
     fst (attempt ext options flags (next_candidate s) (world s))
       <> Returned code) ->
  loop_body ext options flags s =
  Abort (passed_on
           (fst (attempt ext options flags (next_candidate s) (world s))))
    {| working := working s; not_working := not_working s;
       exit_code := exit_code s;
       world := snd (attempt ext options flags (next_candidate s) (world s));
       printed := printed s ++
         [PrintCandidate (working s) (not_working s) (next_candidate s);
          RunWithOptionsRaised [xmx_argument (next_candidate s)]] |}.
Proof.
  unfold loop_body, attempt.
  destruct (run_with_options ext options flags
              [xmx_argument (next_candidate s)] (world s)) as [how w].
  cbn [fst snd]. intros H.
  destruct how as [code | m | | c]; try reflexivity.
  exfalso. exact (H code eq_refl).
Qed.

(** The ways through the body: the four of an answered attempt, by its
    exit code, and that of an attempt that did not answer. *)
Lemma loop_body_cases (s : state) :
  let r := attempt ext options flags (next_candidate s) (world s) in
  (fst r = Returned 0 /\
   loop_body ext options flags s =
     Normal {| working := next_candidate s; not_working := not_working s;
               exit_code := 0; world := snd r;
               printed := body_log s 0 |})
  \/
  (fst r = Returned TIMEOUT_KILL_CODE /\
   loop_body ext options flags s =
     Normal {| working := working s; not_working := next_candidate s;
               exit_code := TIMEOUT_KILL_CODE; world := snd r;
               printed := body_log s TIMEOUT_KILL_CODE ++ [PrintTimeout] |})
  \/
  (fst r = Returned OOM_EXIT_CODE /\
   loop_body ext options flags s =
     Normal {| working := working s; not_working := next_candidate s;
               exit_code := OOM_EXIT_CODE; world := snd r;
               printed := body_log s OOM_EXIT_CODE |})
  \/
  (exists code,
     fst r = Returned code /\ other_failure code /\
     loop_body ext options flags s =
       Return 2 {| working := working s; not_working := not_working s;
                   exit_code := code; world := snd r;
                   printed := body_log s code ++
                              [PrintNonOOMTimeoutError] |})
  \/
  ((forall code, fst r <> Returned code) /\
   exists s', loop_body ext options flags s = Abort (passed_on (fst r)) s' /\
              working s' = working s /\ not_working s' = not_working s /\
              printed s' = printed s ++
                [PrintCandidate (working s) (not_working s)
                   (next_candidate s);
                 RunWithOptionsRaised [xmx_argument (next_candidate s)]]).
Proof.
  cbv zeta.
  destruct (fst (attempt ext options flags (next_candidate s) (world s)))
    as [code | m | | c] eqn:A.
  - rewrite (loop_body_answered s code A).
    destruct (after_attempt_cases s code
                (snd (attempt ext options flags (next_candidate s) (world s))))
      as [[-> E] | [[-> E] | [[-> E] | [O E]]]].
    + left. split; [reflexivity | exact E].
    + right; left. split; [reflexivity | exact E].
    + right; right; left. split; [reflexivity | exact E].
    + right; right; right; left. exists code. auto.
  - right; right; right; right. split; [discriminate |].
    eexists. rewrite loop_body_unanswered by (rewrite A; discriminate).
    rewrite A. repeat split.
  - right; right; right; right. split; [discriminate |].
    eexists. rewrite loop_body_unanswered by (rewrite A; discriminate).
    rewrite A. repeat split.
  - right; right; right; right. split; [discriminate |].
    eexists. rewrite loop_body_unanswered by (rewrite A; discriminate).
    rewrite A. repeat split.
Qed.

(** The assertion of line 266 never fails. *)
Lemma loop_body_asserts (s s' : state) :
  loop_body ext options flags s <> AssertionError s'.
Proof.
  destruct (loop_body_cases s)
    as [[_ E] | [[_ E] | [[_ E] | [(c & _ & _ & E) | (_ & x & E & _)]]]];
    rewrite E; discriminate.
Qed.

(** A body that falls through moved exactly one bound to the candidate,
    according to the exit code the attempt answered. *)
Lemma loop_body_normal (s s' : state) :
  loop_body ext options flags s = Normal s' ->
  exists code,
    fst (attempt ext options flags (next_candidate s) (world s))
      = Returned code /\
    exit_code s' = code /\
    world s' = snd (attempt ext options flags (next_candidate s) (world s)) /\
    ((code = 0 /\ working s' = next_candidate s /\
      not_working s' = not_working s /\ printed s' = body_log s 0)
     \/
     ((code = OOM_EXIT_CODE \/ code = TIMEOUT_KILL_CODE) /\
      working s' = working s /\ not_working s' = next_candidate s /\
      exists tail, printed s' = body_log s code ++ tail /\
                   attempts tail = 0%nat /\
                   existsb is_found_range tail = false)).
Proof.
  intros H.
  destruct (loop_body_cases s)
    as [[C E] | [[C E] | [[C E] | [(c & C & _ & E) | (_ & x & E & _)]]]];
    rewrite E in H; inversion H; subst; clear H; cbn.
  - exists 0. split; [exact C |]. split; [reflexivity |].
    split; [reflexivity |]. left. repeat split; reflexivity.
  - exists TIMEOUT_KILL_CODE. split; [exact C |]. split; [reflexivity |].
    split; [reflexivity |]. right. split; [right; reflexivity |].
    repeat split. exists [PrintTimeout]. repeat split; reflexivity.
  - exists OOM_EXIT_CODE. split; [exact C |]. split; [reflexivity |].
    split; [reflexivity |]. right. split; [left; reflexivity |].
    repeat split. exists []. rewrite app_nil_r. repeat split; reflexivity.
Qed.

(** A body that returns gave up on an exit code it does not interpret. *)
Lemma loop_body_return (s s' : state) (status : Z) :
  loop_body ext options flags s = Return status s' ->
  exists code,
    fst (attempt ext options flags (next_candidate s) (world s))
      = Returned code /\
    status = 2 /\ other_failure code /\
    working s' = working s /\ not_working s' = not_working s /\
    exit_code s' = code /\
    printed s' = body_log s code ++ [PrintNonOOMTimeoutError].
Proof.
  intros H.
  destruct (loop_body_cases s)
    as [[C E] | [[C E] | [[C E] | [(c & C & O & E) | (_ & x & E & _)]]]];
    rewrite E in H; inversion H; subst; clear H; cbn.
  exists c. repeat split; try reflexivity; try exact C; apply O.
Qed.

End Body.

(** ** The loop *)

Section Loop.

Context {World : Type}.
Variable ext : Collaborators World.
Variable options : Options.
Variable flags : Flag.t.

Local Abbreviation state := (search_state (World := World)).
Local Abbreviation range_size := (find_min_xmx_range_size options).

Lemma attempts_app (l1 l2 : list event) :
  attempts (l1 ++ l2) = (attempts l1 + attempts l2)%nat.
Proof. unfold attempts. rewrite filter_app, length_app. reflexivity. Qed.

Lemma attempts_body_log (s : state) (code : Z) :
  attempts (body_log s code) = S (attempts (printed s)).
Proof. unfold body_log. rewrite attempts_app. cbn. lia. Qed.

Lemma reaches_trans (s0 s1 s2 : state) :
  reaches ext options flags s0 s1 -> reaches ext options flags s1 s2 ->
  reaches ext options flags s0 s2.
Proof.
  intros H01 H12. induction H12 as [| s s' _ IH Hit].
  - exact H01.
  - exact (reaches_next ext options flags s0 s s' IH Hit).
Qed.

Lemma reaches_first (s0 s1 s2 : state) :
  iteration ext options flags s0 s1 -> reaches ext options flags s1 s2 ->
  reaches ext options flags s0 s2.
Proof.
  intros Hit H12. apply (reaches_trans s0 s1 s2); [| exact H12].
  apply (reaches_next ext options flags s0 s0 s1); [constructor | exact Hit].
Qed.

(** What a finished loop says about the run: it stopped at a state reached
    by iterations, because the condition failed there, or because the body
    returned 2 there, or because the attempt made there did not answer. *)
Lemma while_loop_sound (fuel : nat) (s : state) (r : completion) :
  while_loop ext fuel options flags s = Some r ->
  exists s1,
    reaches ext options flags s s1 /\
    ((r = Normal s1 /\ loop_test options s1 = false) \/
     (loop_test options s1 = true /\ loop_body ext options flags s1 = r /\
      ((exists s2, r = Return 2 s2) \/ (exists how s2, r = Abort how s2)))).
Proof.
  revert s. induction fuel as [| fuel IH]; intros s; cbn.
  - destruct (loop_test options s) eqn:T; [discriminate |].
    intros H; inversion H; subst. exists s. split; [constructor | auto].
  - destruct (loop_test options s) eqn:T.
    + destruct (loop_body ext options flags s)
        as [s' | status s' | s' | how s'] eqn:B.
      * intros H. destruct (IH s' H) as (s1 & R & C).
        exists s1. split; [| exact C].
        apply (reaches_first s s' s1); [split; assumption | exact R].
      * intros H; inversion H; subst. exists s. split; [constructor |].
        right. split; [exact T |]. split; [exact B |].
        destruct (loop_body_return ext options flags s s' status B)
          as (c & _ & -> & _).
        left. exists s'. reflexivity.
      * exfalso. exact (loop_body_asserts ext options flags s s' B).
      * intros H; inversion H; subst. exists s. split; [constructor |].
        right. split; [exact T |]. split; [exact B |].
        right. exists how, s'. reflexivity.
    + intros H; inversion H; subst. exists s. split; [constructor | auto].
Qed.

(** More fuel does not change the result of a finished loop. *)
Lemma while_loop_more_fuel (fuel fuel' : nat) (s : state) (r : completion) :
  while_loop ext fuel options flags s = Some r -> (fuel <= fuel')%nat ->
  while_loop ext fuel' options flags s = Some r.
Proof.
  revert fuel' s. induction fuel as [| fuel IH]; intros fuel' s; cbn.
  - destruct (loop_test options s) eqn:T; [discriminate |].
    intros H _. destruct fuel'; cbn; rewrite T; exact H.
  - destruct (loop_test options s) eqn:T.
    + intros H Hle. destruct fuel' as [| fuel']; [lia |]. cbn. rewrite T.
      destruct (loop_body ext options flags s) as [s' | status s' | s' | how s'];
        [apply IH; [exact H | lia] | exact H | exact H | exact H].
    + intros H _. destruct fuel'; cbn; rewrite T; exact H.
Qed.

(** Running the loop from a reached state finishes the run of the loop
    from the start. *)
Lemma while_loop_resume (s0 s : state) :
  reaches ext options flags s0 s ->
  forall fuel r, while_loop ext fuel options flags s = Some r ->
  exists fuel0, while_loop ext fuel0 options flags s0 = Some r.
Proof.
  induction 1 as [| s s' _ IH [T B]]; intros fuel r H.
  - exists fuel. exact H.
  - apply (IH (S fuel)). cbn. rewrite T, B. exact H.
Qed.

(** Termination with a bound: when the range is at least 1 and the width
    is at most [range * 2 ^ k], the loop finishes within [k] iterations,
    whatever the attempts answer, and launches at most [k] attempts. *)
Lemma while_loop_within (k : nat) (s : state) :
  1 <= range_size ->
  working s - not_working s <= range_size * 2 ^ Z.of_nat k ->
  exists r,
    while_loop ext k options flags s = Some r /\
    (attempts (printed (state_of r)) <= attempts (printed s) + k)%nat.
Proof.
  intros Hr. revert s. induction k as [| k IH]; intros s Hw.
  - cbn in Hw. cbn.
    destruct (loop_test options s) eqn:T.
    + apply loop_test_true in T. lia.
    + exists (Normal s). split; [reflexivity | cbn; lia].
  - cbn [while_loop].
    destruct (loop_test options s) eqn:T.
    + apply loop_test_true in T.
      rewrite Nat2Z.inj_succ, Z.pow_succ_r in Hw by lia.
      pose proof (halves_le (working s - not_working s)
                    (range_size * 2 ^ Z.of_nat k) ltac:(lia)) as [Hf Hc].
      destruct (loop_body_cases ext options flags s)
        as [[_ E] | [[_ E] | [[_ E] | [(c & _ & _ & E) | (_ & x & E & _ & _ & P)]]]];
        rewrite E.
      * match goal with |- context [while_loop _ _ _ _ ?s'] =>
          destruct (IH s') as (r & Hrun & Hatt) end.
        { cbn. unfold next_candidate. lia. }
        exists r. split; [exact Hrun |].
        cbn [state_of printed] in Hatt. rewrite attempts_body_log in Hatt. lia.
      * match goal with |- context [while_loop _ _ _ _ ?s'] =>
          destruct (IH s') as (r & Hrun & Hatt) end.
        { cbn. unfold next_candidate. lia. }
        exists r. split; [exact Hrun |].
        cbn [state_of printed] in Hatt. rewrite attempts_app, attempts_body_log in Hatt.
        cbn in Hatt. lia.
      * match goal with |- context [while_loop _ _ _ _ ?s'] =>
          destruct (IH s') as (r & Hrun & Hatt) end.
        { cbn. unfold next_candidate. lia. }
        exists r. split; [exact Hrun |].
        cbn [state_of printed] in Hatt. rewrite attempts_body_log in Hatt. lia.
      * eexists. split; [reflexivity |].
        cbn [state_of printed]. rewrite attempts_app, attempts_body_log. cbn. lia.
      * eexists. split; [reflexivity |].
        cbn [state_of]. rewrite P, attempts_app. cbn. lia.
    + exists (Normal s). split; [reflexivity | cbn; lia].
Qed.

End Loop.

(** ** The processes of the examples *)

Lemma substring_prefix (s t : string) :
  substring 0 (String.length s) (s ++ t) = s.
Proof.
  induction s as [| a s IH]; cbn.
  - destruct t; reflexivity.
  - rewrite IH. reflexivity.
Qed.

Lemma length_append (s t : string) :
  String.length (s ++ t) = (String.length s + String.length t)%nat.
Proof.
  induction s as [| a s IH]; cbn; [reflexivity | rewrite IH; reflexivity].
Qed.

Lemma int_of_string_str (c : Z) :
  NilZero.int_of_string (str c) = Some (Z.to_int c).
Proof.
  unfold str. apply NilZero.isi; destruct c; cbn; try discriminate.
  - intros H. injection H. apply Unsigned.to_uint_nonnil.
  - intros H. injection H. apply Unsigned.to_uint_nonnil.
Qed.

(** The argument built by the loop body is read back as its ceiling. *)
Lemma ceiling_of_argument_xmx (c : Z) :
  ceiling_of_argument (xmx_argument c) = Some c.
Proof.
  unfold ceiling_of_argument, xmx_argument.
  assert (P : forall t, prefix "-Xmx" ("-Xmx" ++ t) = true).
  { intros t. destruct t; reflexivity. }
  rewrite P.
  assert (E : forall t,
             substring 4 (String.length ("-Xmx" ++ t ++ "M") - 5)
               ("-Xmx" ++ t ++ "M") = t).
  { intros t. cbn [append String.length].
    rewrite length_append. cbn [String.length].
    replace (S (S (S (S (String.length t + 1)))) - 5)%nat
      with (String.length t) by lia.
    cbn [substring]. apply substring_prefix. }
  rewrite E, int_of_string_str, DecimalZ.of_to. reflexivity.
Qed.

Lemma xmx_argument_has_ceiling (options : Options) (c : Z) :
  with_default_xmx options [xmx_argument c] = [xmx_argument c].
Proof.
  unfold with_default_xmx. cbn [existsb].
  replace (contains "-Xmx" (xmx_argument c)) with true; [reflexivity |].
  unfold xmx_argument. cbn [append contains].
  destruct (str c ++ "M")%string; reflexivity.
Qed.

(** The checks pass for the options of the examples. *)
Lemma checks_search_options {World : Type} (ext : Collaborators World)
    (c : string) (mn mx : option Z) (r : Z) (w : World) :
  java_version_output ext w = openjdk_output ->
  existsb (String.eqb c) COMPILERS = true ->
  checks ext (search_options c mn mx r) plain_flags w = Returned ("cf", r8_data).
Proof.
  intros J C. unfold checks. cbn [plain_flags Flag.ignore_java_version].
  rewrite J.
  cbn [search_options compiler Flag.compiler_build]. rewrite C.
  reflexivity.
Qed.

(** The attempts of a compiler that needs [B] megabytes. *)
Lemma needs_memory_attempt (B : Z) (c : string) (mn mx : option Z)
    (r ceiling : Z) (w : unit) :
  existsb (String.eqb c) COMPILERS = true ->
  attempt (needs_memory B) (search_options c mn mx r) plain_flags ceiling w =
  (Returned (if B <=? ceiling then 0 else OOM_EXIT_CODE), w).
Proof.
  intros C. unfold attempt, run_with_options.
  rewrite xmx_argument_has_ceiling.
  rewrite (checks_search_options (needs_memory B) c mn mx r w eq_refl C).
  cbn [needs_memory known_configuration toolhelper_run search_options
       dump_args_file truthy_string negb plain_flags Flag.compiler_build
       Flag.print_memoryuse String.eqb Ascii.eqb Bool.eqb andb].
  rewrite ceiling_of_argument_xmx.
  destruct (B <=? ceiling); reflexivity.
Qed.

Lemma needs_memory_monotonic (B : Z) (c : string) (mn mx : option Z) (r : Z) :
  existsb (String.eqb c) COMPILERS = true ->
  monotonic (needs_memory B) (search_options c mn mx r) plain_flags B.
Proof.
  intros C ceiling w. rewrite (needs_memory_attempt B c mn mx r ceiling w C).
  cbn [fst]. split; intros H.
  - apply Z.leb_le in H. rewrite H. reflexivity.
  - apply Z.leb_gt in H. rewrite H. left. reflexivity.
Qed.

(** ** Invariants of the iterations *)

Section Invariants.

Context {World : Type}.
Variable ext : Collaborators World.
Variable options : Options.
Variable flags : Flag.t.

Local Abbreviation state := (search_state (World := World)).
Local Abbreviation range_size := (find_min_xmx_range_size options).

(** An iteration moved one bound to the candidate: [working] when the
    attempt answered 0, [not_working] when it answered one of the two
    failure codes. *)
Lemma iteration_cases (s s' : state) :
  iteration ext options flags s s' ->
  fst (attempt ext options flags (next_candidate s) (world s))
    = Returned (exit_code s') /\
  ((exit_code s' = 0 /\ working s' = next_candidate s /\
    not_working s' = not_working s)
   \/
   ((exit_code s' = OOM_EXIT_CODE \/ exit_code s' = TIMEOUT_KILL_CODE) /\
    working s' = working s /\ not_working s' = next_candidate s)).
Proof.
  intros [_ B].
  destruct (loop_body_normal ext options flags s s' B)
    as (code & A & <- & _ & [(C & Hw & Hn & _) | (C & Hw & Hn & _)]);
    (split; [exact A |]); auto.
Qed.

(** Bounds that are ordered stay ordered, for every range. *)
Lemma reaches_ordered (s0 s : state) :
  not_working s0 <= working s0 -> reaches ext options flags s0 s ->
  not_working s <= working s.
Proof.
  intros H0. induction 1 as [| s s' _ IH Hit]; [exact H0 |].
  pose proof (half_nonneg (working s - not_working s) ltac:(lia)) as Hh.
  destruct (iteration_cases s s' Hit) as (_ & [(_ & -> & ->) | (_ & -> & ->)]);
    unfold next_candidate; lia.
Qed.

(** With a range of at least 1 the bounds stay strictly ordered. *)
Lemma reaches_bracket (s0 s : state) :
  1 <= range_size -> not_working s0 < working s0 ->
  reaches ext options flags s0 s -> not_working s < working s.
Proof.
  intros Hr H0. induction 1 as [| s s' _ IH Hit]; [exact H0 |].
  pose proof Hit as [T _]. apply loop_test_true in T.
  pose proof (half_bounds (working s - not_working s) ltac:(lia)) as Hh.
  destruct (iteration_cases s s' Hit) as (_ & [(_ & -> & ->) | (_ & -> & ->)]);
    unfold next_candidate; lia.
Qed.

(** Under a monotonic attempt the bounds keep the boundary between them. *)
Lemma reaches_boundary (B : Z) (s0 s : state) :
  monotonic ext options flags B ->
  not_working s0 < B <= working s0 ->
  reaches ext options flags s0 s -> not_working s < B <= working s.
Proof.
  intros M H0. induction 1 as [| s s' _ IH Hit]; [exact H0 |].
  destruct (M (next_candidate s) (world s)) as [Mge Mlt].
  destruct (iteration_cases s s' Hit)
    as (E & [(C & -> & ->) | (C & -> & ->)]).
  - split; [lia |].
    destruct (Z_lt_le_dec (next_candidate s) B) as [Hlt | Hge]; [| exact Hge].
    exfalso. rewrite C in E.
    destruct (Mlt Hlt) as [F | F]; rewrite F in E; discriminate.
  - split; [| lia].
    destruct (Z_lt_le_dec (next_candidate s) B) as [Hlt | Hge]; [exact Hlt |].
    exfalso. rewrite (Mge Hge) in E. injection E as E.
    destruct C as [C | C]; rewrite C in E; discriminate.
Qed.

(** Where the value of [working] comes from. *)
Lemma reaches_working_origin (s0 s : state) :
  reaches ext options flags s0 s ->
  working s = working s0 \/
  exists s1 s2,
    reaches ext options flags s0 s1 /\ iteration ext options flags s1 s2 /\
    fst (attempt ext options flags (next_candidate s1) (world s1))
      = Returned 0 /\
    working s = next_candidate s1.
Proof.
  induction 1 as [| s s' R IH Hit]; [left; reflexivity |].
  destruct (iteration_cases s s' Hit) as (E & [(C & Hw & _) | (_ & Hw & _)]).
  - right. exists s, s'. rewrite <- C. auto.
  - rewrite Hw. exact IH.
Qed.

(** No iteration prints or archives a found range, and every iteration
    launches one attempt. *)
Lemma reaches_log (s0 s : state) :
  existsb is_found_range (printed s0) = false ->
  reaches ext options flags s0 s ->
  existsb is_found_range (printed s) = false.
Proof.
  intros H0. induction 1 as [| s s' _ IH [_ B]]; [exact H0 |].
  destruct (loop_body_normal ext options flags s s' B)
    as (code & _ & _ & _ &
        [(_ & _ & _ & ->) | (_ & _ & _ & tail & -> & _ & Ht)]);
    unfold body_log; repeat rewrite existsb_app; rewrite IH;
    try rewrite Ht; reflexivity.
Qed.

(** ** After the loop *)

(** Whatever way the statements after the loop end, they leave the bounds
    as they are and add the found range to the log, and no candidate or
    attempt. *)
Lemma report_state (s : state) :
  loop_test options s = false ->
  working (state_of (report ext options flags s)) = working s /\
  not_working (state_of (report ext options flags s)) = not_working s /\
  (exists tail,
     printed (state_of (report ext options flags s)) =
       printed s ++ PrintFoundRange (not_working s) (working s) :: tail /\
     attempts tail = 0%nat /\ candidates tail = [] /\ answers tail = []) /\
  ((exists sf, report ext options flags s = Return 0 sf) \/
   (find_min_xmx_archive options = true /\
    exists how sf, report ext options flags s = Abort how sf)).
Proof.
  intros T. apply loop_test_false in T. unfold report, archive.
  apply Z.leb_le in T. rewrite T.
  destruct (find_min_xmx_archive options).
  - cbn [world working not_working exit_code printed].
    destruct (get_HEAD_sha1 ext (world s)) as [sha | m | | c];
      [destruct (get_version_and_data options) as [[v d] | m | | c];
       [destruct (archive_value ext _ _ _ (world s)) as [[u | m | | c] w'] | ..]
      | ..];
      cbn [state_of working not_working printed];
      (split; [reflexivity |]); (split; [reflexivity |]);
      (split;
       [first [ exists []; repeat split; reflexivity
              | eexists [_]; rewrite <- app_assoc; repeat split; reflexivity ]
       |]);
      first [ left; eexists; reflexivity
            | right; split; [reflexivity |]; eexists; eexists; reflexivity ].
  - cbn [state_of working not_working printed].
    split; [reflexivity |]. split; [reflexivity |].
    split; [exists []; repeat split; reflexivity |].
    left. eexists. reflexivity.
Qed.

(** Without archiving they return 0. *)
Lemma report_returns (s : state) :
  loop_test options s = false ->
  find_min_xmx_archive options = false ->
  exists s',
    report ext options flags s = Return 0 s' /\
    working s' = working s /\ not_working s' = not_working s /\
    world s' = world s /\
    attempts (printed s') = attempts (printed s) /\
    printed s' = printed s ++ [PrintFoundRange (not_working s) (working s)].
Proof.
  intros T A. apply loop_test_false in T. unfold report.
  apply Z.leb_le in T. rewrite T, A.
  eexists. split; [reflexivity |]. cbn [working not_working printed world].
  repeat split. rewrite attempts_app. cbn. lia.
Qed.

(** A call with no positional arguments runs the loop from the initial
    bounds and then reports. *)
Lemma find_min_xmx_unfold (fuel : nat) (w : World) :
  find_min_xmx ext fuel options flags [] w =
  match while_loop ext fuel options flags (initial_state options w) with
  | None => None
  | Some (Normal s) => Some (report ext options flags s)
  | Some stopped => Some stopped
  end.
Proof. reflexivity. Qed.

(** An exit code the search does not interpret, met at a state reached
    from the initial bounds, ends the call there with status 2. *)
Lemma find_min_xmx_gives_up (w : World) (s : state) (c : Z) :
  reaches ext options flags (initial_state options w) s ->
  loop_test options s = true ->
  let r := attempt ext options flags (next_candidate s) (world s) in
  fst r = Returned c ->
  other_failure c ->
  exists fuel0, forall fuel, (fuel0 <= fuel)%nat ->
    find_min_xmx ext fuel options flags [] w =
      Some (Return 2 {| working := working s; not_working := not_working s;
                        exit_code := c; world := snd r;
                        printed := body_log s c ++
                                   [PrintNonOOMTimeoutError] |}).
Proof.
  intros R T r A O.
  assert (E : loop_body ext options flags s =
              Return 2 {| working := working s; not_working := not_working s;
                          exit_code := c; world := snd r;
                          printed := body_log s c ++
                                     [PrintNonOOMTimeoutError] |}).
  { rewrite (loop_body_answered ext options flags s c A). fold r.
    destruct (after_attempt_cases s c (snd r))
      as [[C _] | [[C _] | [[C _] | [_ E]]]];
      try (exfalso; destruct O as (O0 & O42 & O9); congruence).
    exact E. }
  destruct (while_loop_resume ext options flags _ s R 1%nat _
              ltac:(cbn; rewrite T, E; reflexivity)) as (fuel0 & L).
  exists fuel0. intros fuel Hle. rewrite find_min_xmx_unfold.
  rewrite (while_loop_more_fuel ext options flags fuel0 fuel _ _ L Hle).
  reflexivity.
Qed.

End Invariants.
(** With a range of at least 1 the loop finishes from every state. *)
Lemma while_loop_terminates {World : Type} (ext : Collaborators World)
    (options : Options) (flags : Flag.t) (s : search_state) :
  1 <= find_min_xmx_range_size options ->
  exists fuel r, while_loop ext fuel options flags s = Some r.
Proof.
  intros Hr.
  set (d := Z.max 0 (working s - not_working s)).
  destruct (while_loop_within ext options flags (Z.to_nat d) s Hr) as (r & Hrun & _).
  - rewrite Z2Nat.id by lia.
    pose proof (Z.pow_gt_lin_r 2 d ltac:(lia) ltac:(lia)). nia.
  - exists (Z.to_nat d), r. exact Hrun.
Qed.


(** The attempts of a compiler that exits with [code] below [B]. *)
Lemma fails_below_attempt (B code : Z) (c : string) (mn mx : option Z)
    (r ceiling : Z) (w : unit) :
  code <> 0 ->
  existsb (String.eqb c) COMPILERS = true ->
  attempt (fails_below B code) (search_options c mn mx r) plain_flags
    ceiling w =
  (Returned (if B <=? ceiling then 0 else code), w).
Proof.
  intros N C. unfold attempt, run_with_options.
  rewrite xmx_argument_has_ceiling.
  rewrite (checks_search_options (fails_below B code) c mn mx r w eq_refl C).
  cbn [fails_below known_configuration toolhelper_run search_options
       dump_args_file truthy_string negb plain_flags Flag.compiler_build
       Flag.print_memoryuse String.eqb Ascii.eqb Bool.eqb andb].
  rewrite ceiling_of_argument_xmx.
  destruct (B <=? ceiling); [reflexivity |].
  apply Z.eqb_neq in N. rewrite N. reflexivity.
Qed.

Lemma fails_below_succeeds_from (B code : Z) (c : string)
    (mn mx : option Z) (r : Z) :
  code <> 0 ->
  existsb (String.eqb c) COMPILERS = true ->
  succeeds_from (fails_below B code) (search_options c mn mx r) plain_flags B.
Proof.
  intros N C ceiling w.
  rewrite (fails_below_attempt B code c mn mx r ceiling w N C).
  cbn [fst]. split; intros H.
  - apply Z.leb_le in H. rewrite H. reflexivity.
  - apply Z.leb_gt in H. rewrite H. intros E. injection E as E. contradiction.
Qed.

(** ** The launch *)

Section Launch.

Context {World : Type} (ext : Collaborators World).
Variable options : Options.
Variable flags : Flag.t.




Lemma after_run_plain (w : World) :
  truthy_string (Flag.print_dexsegments flags) = false ->
  after_run ext flags w = (Returned 0, w).
Proof.
  unfold after_run.
  destruct (Flag.print_dexsegments flags) as [prefix |]; [| reflexivity].
  intros ->. reflexivity.
Qed.


(** Under a monotonic attempt the body never gives up and is never left
    by an attempt that does not answer. *)
Lemma monotonic_no_return (B : Z) (s s' : search_state) (status : Z) :
  monotonic ext options flags B ->
  loop_body ext options flags s <> Return status s'.
Proof.
  intros M E.
  destruct (loop_body_return ext options flags s s' status E)
    as (c & A & _ & (O0 & O42 & O9) & _).
  destruct (M (next_candidate s) (world s)) as [Mge Mlt].
  destruct (Z_lt_le_dec (next_candidate s) B) as [Hlt | Hge].
  - destruct (Mlt Hlt) as [F | F]; rewrite F in A; injection A as <-;
      contradiction.
  - rewrite (Mge Hge) in A. injection A as <-. contradiction.
Qed.

Lemma monotonic_no_abort (B : Z) (s s' : search_state)
    (how : termination unit) :
  monotonic ext options flags B ->
  loop_body ext options flags s <> Abort how s'.
Proof.
  intros M E.
  destruct (M (next_candidate s) (world s)) as [Mge Mlt].
  destruct (loop_body_cases ext options flags s)
    as [[C F] | [[C F] | [[C F] | [(c & C & O & F) | (N & _)]]]];
    try (rewrite F in E; discriminate).
  destruct (Z_lt_le_dec (next_candidate s) B) as [Hlt | Hge].
  - destruct (Mlt Hlt) as [F | F]; exact (N _ F).
  - exact (N _ (Mge Hge)).
Qed.

(** Under a monotonic attempt a finished loop fell through its test. *)
Lemma monotonic_completes (B : Z) (fuel : nat) (w : World) (r : completion) :
  monotonic ext options flags B ->
  while_loop ext fuel options flags (initial_state options w) = Some r ->
  exists s,
    r = Normal s /\
    reaches ext options flags (initial_state options w) s /\
    loop_test options s = false.
Proof.
  intros M L.
  destruct (while_loop_sound ext options flags fuel _ r L)
    as (s & R & [[-> T] | (_ & E & [(s2 & ->) | (how & s2 & ->)])]).
  - exists s. auto.
  - exfalso. exact (monotonic_no_return B _ _ _ M E).
  - exfalso. exact (monotonic_no_abort B _ _ _ M E).
Qed.

End Launch.

Lemma half_up (d : Z) : d - d / 2 = (d + 1) / 2.
Proof.
  pose proof (Z.div_mod d 2 ltac:(lia)) as E.
  pose proof (Z.mod_pos_bound d 2 ltac:(lia)) as B.
  pose proof (Z.div_mod (d + 1) 2 ltac:(lia)) as E'.
  pose proof (Z.mod_pos_bound (d + 1) 2 ltac:(lia)) as B'.
  lia.
Qed.

(** * The claims *)

(** C4.  While the loop condition holds and the range is at least 1, the
    candidate [working - (working - not_working) / 2] lies strictly
    between the bounds; an iteration therefore leaves a strictly smaller
    interval that is still not empty, and the loop finishes from every
    state. *)
Theorem candidate_strict_progress {World : Type} (ext : Collaborators World)
    (options : Options) (flags : Flag.t) (s : search_state) :
  1 <= find_min_xmx_range_size options ->
  loop_test options s = true ->
  not_working s < next_candidate s < working s /\
  (forall s', loop_body ext options flags s = Normal s' ->
     0 < working s' - not_working s' < working s - not_working s) /\
  exists fuel r, while_loop ext fuel options flags s = Some r.
Proof.
  intros Hr T. apply loop_test_true in T.
  pose proof (half_bounds (working s - not_working s) ltac:(lia)) as [H1 H2].
  assert (Hc : not_working s < next_candidate s < working s).
  { unfold next_candidate. lia. }
  split; [exact Hc |]. split.
  - intros s' B.
    destruct (loop_body_normal ext options flags s s' B)
      as (code & _ & _ & _ & [(_ & -> & -> & _) | (_ & -> & -> & _)]); lia.
  - exact (while_loop_terminates ext options flags s Hr).
Qed.

Lemma candidate_strict_progress_witness :
  let options := search_options "d8" (Some 100) (Some 200) 32 in
  let s := initial_state options [(42, ""); (0, "")] in
  (1 <= find_min_xmx_range_size options /\ loop_test options s = true) /\
  not_working s < next_candidate s < working s /\
  (forall s', loop_body scripted options plain_flags s = Normal s' ->
     0 < working s' - not_working s' < working s - not_working s) /\
  exists fuel r, while_loop scripted fuel options plain_flags s = Some r.
Proof.
  intros options s. split.
  - split; [cbn; lia | reflexivity].
  - apply (candidate_strict_progress scripted options plain_flags s);
      [cbn; lia | reflexivity].
Defined.

(** C10.  An override of 0 for the lower or the upper bound is treated as
    an absent option, because the script tests the truth value of the
    option: the lower bound is then 128 for the compiler d8 and 1024
    otherwise, the upper bound is 8192, and the search starts from the
    same state as without the overrides; any other value is used as the
    bound. *)
Theorem zero_overrides_fall_back (options : Options)
    (lower upper : option Z) :
  let default_lower :=
    match compiler options with
    | Some c => if String.eqb c "d8" then 128 else 1024
    | None => 1024
    end in
  initial_not_working (override options None upper) = default_lower /\
  initial_not_working (override options (Some 0) upper) = default_lower /\
  (forall m, initial_not_working (override options (Some m) upper) =
             if m =? 0 then default_lower else m) /\
  initial_working (override options lower None) = 8192 /\
  initial_working (override options lower (Some 0)) = 8192 /\
  (forall m, initial_working (override options lower (Some m)) =
             if m =? 0 then 8192 else m) /\
  forall (World : Type) (w : World),
    initial_state (override options (Some 0) (Some 0)) w =
    initial_state (override options None None) w.
Proof.
  cbv zeta. unfold initial_state, initial_not_working, initial_working.
  cbn [override find_min_xmx_min_memory find_min_xmx_max_memory compiler
       truthy].
  repeat split; intros m; destruct (m =? 0); reflexivity.
Qed.

(** C9, as amended.  When the initial bounds are already within the range,
    the call launches no attempt, with any fuel, and prints the initial
    bounds as the found range; it returns 0 when the result is not to be
    archived, and otherwise it returns 0 or is left by what the archiving
    raises. *)
Theorem within_tolerance_no_attempt {World : Type} (ext : Collaborators World)
    (options : Options) (flags : Flag.t) (fuel : nat) (w : World) :
  initial_working options - initial_not_working options
    <= find_min_xmx_range_size options ->
  exists r,
    find_min_xmx ext fuel options flags [] w = Some r /\
    not_working (state_of r) = initial_not_working options /\
    working (state_of r) = initial_working options /\
    attempts (printed (state_of r)) = 0%nat /\
    candidates (printed (state_of r)) = [] /\
    (exists tail,
       printed (state_of r) =
         PrintFoundRange (initial_not_working options)
           (initial_working options) :: tail) /\
    (find_min_xmx_archive options = false ->
     r = Return 0 {| working := initial_working options;
                     not_working := initial_not_working options;
                     exit_code := 0; world := w;
                     printed := [PrintFoundRange (initial_not_working options)
                                   (initial_working options)] |}) /\
    ((exists s, r = Return 0 s) \/
     (find_min_xmx_archive options = true /\ exists how s, r = Abort how s)).
Proof.
  intros H.
  assert (T : loop_test options (initial_state options w) = false).
  { apply loop_test_false. exact H. }
  exists (report ext options flags (initial_state options w)).
  destruct (report_state ext options flags _ T)
    as (Hw & Hn & (tail & Hp & Ha & Hc & _) & Hr).
  split.
  { rewrite find_min_xmx_unfold.
    destruct fuel; cbn [while_loop]; rewrite T; reflexivity. }
  rewrite Hw, Hn, Hp. cbn [initial_state working not_working printed List.app].
  split; [reflexivity |]. split; [reflexivity |].
  split; [exact Ha |]. split; [exact Hc |].
  split; [exists tail; reflexivity |]. split; [| exact Hr].
  intros A. unfold report.
  apply loop_test_false, Z.leb_le in T. rewrite T, A. reflexivity.
Qed.

Lemma within_tolerance_no_attempt_witness :
  let options := search_options "r8" (Some 100) (Some 132) 32 in
  initial_working options - initial_not_working options
    <= find_min_xmx_range_size options /\
  exists r,
    find_min_xmx (needs_memory 4000) 0 options plain_flags [] tt = Some r /\
    not_working (state_of r) = 100 /\
    working (state_of r) = 132 /\
    attempts (printed (state_of r)) = 0%nat /\
    candidates (printed (state_of r)) = [] /\
    (exists tail, printed (state_of r) = PrintFoundRange 100 132 :: tail) /\
    (find_min_xmx_archive options = false ->
     r = Return 0 {| working := 132; not_working := 100;
                     exit_code := 0; world := tt;
                     printed := [PrintFoundRange 100 132] |}) /\
    ((exists s, r = Return 0 s) \/
     (find_min_xmx_archive options = true /\ exists how s, r = Abort how s)).
Proof.
  intros options. split.
  - cbn. lia.
  - apply (within_tolerance_no_attempt (needs_memory 4000) options
             plain_flags 0 tt).
    cbn. lia.
Defined.

(** C9 fails as stated: when the result is to be archived and no
    application is named, the bounds 100 and 132 with the range 32 are
    printed as the found range and the call is then left by the exception
    of [get_version_and_data]; it does not return 0. *)
Lemma archive_without_app_raises :
  let options := archive_options (Some 100) (Some 132) 32 in
  initial_working options - initial_not_working options
    <= find_min_xmx_range_size options /\
  find_min_xmx scripted 0 options plain_flags [] [] =
    Some (Abort (Raised ("You need to specify '--app=" ++ join "|" APPS ++ "'"))
            {| working := 132; not_working := 100; exit_code := 0;
               world := []; printed := [PrintFoundRange 100 132] |}) /\
  ((exists s, find_min_xmx scripted 0 options plain_flags [] [] =
                Some (Return 0 s)) -> False).
Proof.
  cbv zeta. split; [cbn; lia |]. split; [reflexivity |].
  intros [s E]. discriminate E.
Qed.






(** C6.  When an attempt answers an exit code that is neither 0 nor the
    out-of-memory code nor the timeout-kill code, the call ends in that
    iteration: it returns the status 2, which is not the 0 of a completed
    search, the failing attempt is the last one launched, the last thing
    printed is the error message, no found range is printed or archived,
    and the bounds are left as they were. *)
Theorem other_failure_short_circuit {World : Type} (ext : Collaborators World)
    (options : Options) (flags : Flag.t) (w : World) (s : search_state)
    (c : Z) :
  reaches ext options flags (initial_state options w) s ->
  loop_test options s = true ->
  fst (attempt ext options flags (next_candidate s) (world s)) = Returned c ->
  other_failure c ->
  exists fuel0, forall fuel, (fuel0 <= fuel)%nat ->
    exists status s',
      find_min_xmx ext fuel options flags [] w = Some (Return status s') /\
      status = 2 /\ status <> 0 /\
      printed s' = body_log s c ++ [PrintNonOOMTimeoutError] /\
      attempts (printed s') = S (attempts (printed s)) /\
      existsb is_found_range (printed s') = false /\
      working s' = working s /\ not_working s' = not_working s.
Proof.
  intros R T A O.
  destruct (find_min_xmx_gives_up ext options flags w s c R T A O)
    as (fuel0 & H).
  exists fuel0. intros fuel Hle. rewrite (H fuel Hle).
  eexists. eexists. split; [reflexivity |].
  cbn [printed working not_working].
  split; [reflexivity |]. split; [discriminate |]. split; [reflexivity |].
  split; [| split; [| split; reflexivity]].
  - rewrite attempts_app, attempts_body_log. cbn. lia.
  - unfold body_log. repeat rewrite existsb_app.
    rewrite (reaches_log ext options flags (initial_state options w) s eq_refl R).
    reflexivity.
Qed.

Lemma other_failure_short_circuit_witness :
  let options := search_options "d8" None None 32 in
  let w := [(42, ""); (1, "error: no such file"); (0, "")] in
  let s := {| working := 8192; not_working := 4160;
              exit_code := 42; world := [(1, "error: no such file"); (0, "")];
              printed := body_log (initial_state options w) 42 |} in
  exists fuel0, forall fuel, (fuel0 <= fuel)%nat ->
    exists status s',
      find_min_xmx scripted fuel options plain_flags [] w
        = Some (Return status s') /\
      status = 2 /\ status <> 0 /\
      printed s' = body_log s 1 ++ [PrintNonOOMTimeoutError] /\
      attempts (printed s') = S (attempts (printed s)) /\
      existsb is_found_range (printed s') = false /\
      working s' = working s /\ not_working s' = not_working s.
Proof.
  intros options w s.
  apply (other_failure_short_circuit scripted options plain_flags w s 1).
  - apply (reaches_next scripted options plain_flags _ (initial_state options w));
      [constructor | split; reflexivity].
  - reflexivity.
  - reflexivity.
  - unfold other_failure. repeat split; discriminate.
Defined.

(** C7, as amended.  When an attempt answers an exit code [c] that the
    search does not interpret, the call returns the fixed status 2 whatever
    [c] is; [c] only stays in the local variable [exit_code] and is not
    part of what the caller receives. *)
Theorem other_failure_returns_2 {World : Type} (ext : Collaborators World)
    (options : Options) (flags : Flag.t) (w : World) (s : search_state)
    (c : Z) :
  reaches ext options flags (initial_state options w) s ->
  loop_test options s = true ->
  fst (attempt ext options flags (next_candidate s) (world s)) = Returned c ->
  other_failure c ->
  exists fuel0, forall fuel, (fuel0 <= fuel)%nat ->
    exists s',
      find_min_xmx ext fuel options flags [] w = Some (Return 2 s') /\
      exit_code s' = c.
Proof.
  intros R T E O.
  destruct (find_min_xmx_gives_up ext options flags w s c R T E O)
    as (fuel0 & H).
  exists fuel0. intros fuel Hle. rewrite (H fuel Hle).
  eexists. split; reflexivity.
Qed.

Lemma other_failure_returns_2_witness :
  let options := search_options "d8" None None 32 in
  let w := [(17, "")] in
  exists fuel0, forall fuel, (fuel0 <= fuel)%nat ->
    exists s',
      find_min_xmx scripted fuel options plain_flags [] w
        = Some (Return 2 s') /\
      exit_code s' = 17.
Proof.
  intros options w.
  apply (other_failure_returns_2 scripted options plain_flags w
           (initial_state options w)).
  - constructor.
  - reflexivity.
  - reflexivity.
  - unfold other_failure. repeat split; discriminate.
Defined.

(** C7 fails as stated: when the very first attempt answers 17, the call
    returns 2, not 17. *)
Lemma first_attempt_17_returns_2 :
  let options := search_options "d8" None None 32 in
  let w := [(17, "")] in
  let s0 := initial_state options w in
  fst (attempt scripted options plain_flags (next_candidate s0) w)
    = Returned 17 /\
  exists s,
    find_min_xmx scripted 1 options plain_flags [] w = Some (Return 2 s) /\
    2 <> 17 /\
    printed s =
      [PrintCandidate 8192 128 4160; RunWithOptions ["-Xmx4160M"] 17;
       PrintRunningTook; PrintNonOOMTimeoutError].
Proof.
  cbv zeta. split; [reflexivity |].
  eexists. split; [reflexivity |]. split; [discriminate | reflexivity].
Qed.

(** C2, as amended.  When the range is at least 1 and the initial bounds
    satisfy [not_working < working], the inequality holds at the head of
    every iteration and after it, whatever the attempts answer; an
    iteration either lowers [working] to the candidate or raises
    [not_working] to it. *)
Theorem bracketing_invariant {World : Type} (ext : Collaborators World)
    (options : Options) (flags : Flag.t) (s0 s : search_state) :
  1 <= find_min_xmx_range_size options ->
  not_working s0 < working s0 ->
  reaches ext options flags s0 s ->
  not_working s < working s /\
  forall s', iteration ext options flags s s' ->
    not_working s' < working s' /\
    ((working s' = next_candidate s /\ not_working s' = not_working s /\
      working s' < working s)
     \/
     (not_working s' = next_candidate s /\ working s' = working s /\
      not_working s < not_working s')).
Proof.
  intros Hr H0 R.
  pose proof (reaches_bracket ext options flags s0 s Hr H0 R) as Hs.
  split; [exact Hs |]. intros s' Hit.
  pose proof (reaches_bracket ext options flags s0 s' Hr H0
                (reaches_next ext options flags s0 s s' R Hit)) as Hs'.
  split; [exact Hs' |].
  pose proof Hit as [T _]. apply loop_test_true in T.
  pose proof (half_bounds (working s - not_working s) ltac:(lia)) as Hh.
  destruct (iteration_cases ext options flags s s' Hit)
    as (_ & [(_ & Hw & Hn) | (_ & Hw & Hn)]).
  - left. rewrite Hw, Hn. unfold next_candidate. lia.
  - right. rewrite Hw, Hn. unfold next_candidate. lia.
Qed.

Lemma bracketing_invariant_witness :
  let options := search_options "d8" None None 32 in
  let s0 := initial_state options [(0, ""); (-9, ""); (42, "")] in
  (1 <= find_min_xmx_range_size options /\ not_working s0 < working s0) /\
  not_working s0 < working s0 /\
  forall s', iteration scripted options plain_flags s0 s' ->
    not_working s' < working s' /\
    ((working s' = next_candidate s0 /\ not_working s' = not_working s0 /\
      working s' < working s0)
     \/
     (not_working s' = next_candidate s0 /\ working s' = working s0 /\
      not_working s0 < not_working s')).
Proof.
  intros options s0. split.
  - split; cbn; lia.
  - apply (bracketing_invariant scripted options plain_flags s0 s0).
    + cbn; lia.
    + cbn; lia.
    + constructor.
Defined.

(** C2 fails as stated: with a range of 0 and the initial bounds 1 < 2 the
    candidate is 2, and an attempt that runs out of memory raises
    [not_working] to 2, so that the bounds meet. *)
Lemma range_zero_bounds_meet :
  let options := search_options "d8" (Some 1) (Some 2) 0 in
  let w := [(1, "java.lang.OutOfMemoryError: Java heap space")] in
  let s0 := initial_state options w in
  not_working s0 < working s0 /\
  fst (attempt scripted options plain_flags (next_candidate s0) w)
    = Returned 42 /\
  outcome_of_exit_code 42 = OutOfMemory /\
  exists s',
    iteration scripted options plain_flags s0 s' /\
    not_working s' = 2 /\ working s' = 2 /\
    ~ not_working s' < working s'.
Proof.
  cbv zeta. split; [reflexivity |]. split; [reflexivity |].
  split; [reflexivity |].
  eexists. split; [split; reflexivity |].
  cbn. repeat split. lia.
Qed.

(** C8, as amended.  Starting from bounds with [not_working <= working],
    and whatever the attempts answer: an iteration whose attempt fails (out
    of memory or timeout) leaves [working] alone and moves [not_working] to
    the candidate, which never lowers it and raises it while the bounds
    differ; so [working] is always the initial bound or a candidate whose
    attempt answered 0, and it never goes below a boundary under which
    no attempt succeeds; when the loop ends, these are the bounds that
    are printed as the found range. *)
Theorem failures_only_raise_not_working {World : Type}
    (ext : Collaborators World) (options : Options) (flags : Flag.t)
    (w : World) (s : search_state) :
  initial_not_working options <= initial_working options ->
  reaches ext options flags (initial_state options w) s ->
  (forall s', iteration ext options flags s s' -> exit_code s' <> 0 ->
     (exit_code s' = OOM_EXIT_CODE \/ exit_code s' = TIMEOUT_KILL_CODE) /\
     working s' = working s /\
     not_working s' = next_candidate s /\
     not_working s <= not_working s' /\
     (not_working s < working s -> not_working s < not_working s')) /\
  (working s = initial_working options \/
   exists s1 s2,
     reaches ext options flags (initial_state options w) s1 /\
     iteration ext options flags s1 s2 /\
     fst (attempt ext options flags (next_candidate s1) (world s1))
       = Returned 0 /\
     working s = next_candidate s1) /\
  (forall B,
     (forall c w', fst (attempt ext options flags c w') = Returned 0 ->
                   B <= c) ->
     B <= initial_working options -> B <= working s) /\
  (loop_test options s = false ->
   exists fuel r,
     find_min_xmx ext fuel options flags [] w = Some r /\
     working (state_of r) = working s /\
     not_working (state_of r) = not_working s /\
     exists tail,
       printed (state_of r) =
         printed s ++ PrintFoundRange (not_working s) (working s) :: tail).
Proof.
  intros H0 R.
  assert (Hord : not_working s <= working s).
  { apply (reaches_ordered ext options flags (initial_state options w) s);
      [cbn; lia | exact R]. }
  pose proof (reaches_working_origin ext options flags _ s R) as Horigin.
  split; [| split; [exact Horigin | split]].
  - intros s' Hit Hne.
    destruct (iteration_cases ext options flags s s' Hit)
      as (_ & [(C & _) | (C & Hw & Hn)]); [contradiction |].
    split; [exact C |]. split; [exact Hw |]. split; [exact Hn |].
    rewrite Hn. unfold next_candidate.
    pose proof (half_nonneg (working s - not_working s) ltac:(lia)) as Hh.
    split; [lia |]. intros Hlt.
    pose proof (Z.div_lt (working s - not_working s) 2 ltac:(lia) ltac:(lia)).
    lia.
  - intros B Hsafe HB.
    destruct Horigin as [-> | (s1 & s2 & _ & _ & C & ->)]; [exact HB |].
    exact (Hsafe _ _ C).
  - intros T.
    assert (L : while_loop ext 0 options flags s = Some (Normal s)).
    { cbn. rewrite T. reflexivity. }
    destruct (while_loop_resume ext options flags _ s R 0%nat _ L)
      as (fuel & L0).
    destruct (report_state ext options flags s T)
      as (Hw & Hn & (tail & Hp & _) & _).
    exists fuel, (report ext options flags s).
    rewrite find_min_xmx_unfold, L0.
    split; [reflexivity |]. split; [exact Hw |]. split; [exact Hn |].
    exists tail. exact Hp.
Qed.

Lemma failures_only_raise_not_working_witness :
  let options := search_options "d8" (Some 3000) (Some 5000) 32 in
  let w := [(-9, ""); (0, "")] in
  let s := initial_state options w in
  initial_not_working options <= initial_working options /\
  forall s', iteration scripted options plain_flags s s' -> exit_code s' <> 0 ->
    (exit_code s' = OOM_EXIT_CODE \/ exit_code s' = TIMEOUT_KILL_CODE) /\
    working s' = working s /\
    not_working s' = next_candidate s /\
    not_working s <= not_working s' /\
    (not_working s < working s -> not_working s < not_working s').
Proof.
  intros options w s. split.
  - cbn. lia.
  - apply (failures_only_raise_not_working scripted options plain_flags w s).
    + cbn. lia.
    + constructor.
Defined.

(** C8 fails as stated, for initial bounds that are the wrong way round:
    with the lower bound 10, the upper bound 2 and the range -100 the
    loop runs, the candidate is 6, and an attempt that runs out of memory
    takes [not_working] from 10 down to 6. *)
Lemma crossed_bounds_lower_not_working :
  let options := search_options "d8" (Some 10) (Some 2) (-100) in
  let w := [(1, "java.lang.OutOfMemoryError: Java heap space")] in
  let s0 := initial_state options w in
  not_working s0 = 10 /\ working s0 = 2 /\ next_candidate s0 = 6 /\
  fst (attempt scripted options plain_flags (next_candidate s0) w)
    = Returned OOM_EXIT_CODE /\
  exists s',
    iteration scripted options plain_flags s0 s' /\
    working s' = working s0 /\
    not_working s' = 6 /\ not_working s' < not_working s0.
Proof.
  cbv zeta. repeat (split; [reflexivity |]).
  eexists. split; [split; reflexivity |].
  cbn. repeat split.
Qed.

(** C3, as amended.  With initial bounds [not_working0 < working0] and a
    range of at least 1, the loop ends within
    [max 0 (ceil (log2 ((working0 - not_working0) / range)))] iterations
    and launches at most that many attempts, whatever the attempts answer;
    under a monotonic attempt it ends by its test.  An iteration takes the
    width [W] of the interval to [ceil (W / 2)] when the attempt succeeds
    and to [floor (W / 2)] when it fails. *)
Theorem search_terminates_within_log_bound {World : Type}
    (ext : Collaborators World) (options : Options) (flags : Flag.t)
    (w : World) :
  initial_not_working options < initial_working options ->
  1 <= find_min_xmx_range_size options ->
  let bound :=
    Z.to_nat (Z.max 0 (ceil_log2_ratio
                         (initial_working options - initial_not_working options)
                         (find_min_xmx_range_size options))) in
  (exists r,
     while_loop ext bound options flags (initial_state options w) = Some r /\
     (attempts (printed (state_of r)) <= bound)%nat /\
     (forall B, monotonic ext options flags B ->
        exists s, r = Normal s /\ loop_test options s = false)) /\
  (exists r,
     find_min_xmx ext bound options flags [] w = Some r /\
     (attempts (printed (state_of r)) <= bound)%nat) /\
  (forall s s', iteration ext options flags s s' ->
     let W := working s - not_working s in
     (exit_code s' = 0 -> working s' - not_working s' = (W + 1) / 2) /\
     (exit_code s' <> 0 -> working s' - not_working s' = W / 2)).
Proof.
  intros H0 Hr bound.
  destruct (while_loop_within ext options flags bound
              (initial_state options w) Hr) as (r & L & Ha).
  { cbn [working not_working initial_state]. subst bound.
    rewrite Z2Nat.id by lia.
    apply ceil_log2_ratio_le; lia. }
  cbn [initial_state printed attempts List.filter List.length] in Ha.
  replace (attempts [] + bound)%nat with bound in Ha by reflexivity.
  split; [| split].
  - exists r. split; [exact L |]. split; [exact Ha |].
    intros B M.
    destruct (monotonic_completes ext options flags B bound w r M L)
      as (s & -> & _ & T).
    exists s. auto.
  - rewrite find_min_xmx_unfold, L.
    destruct (while_loop_sound ext options flags bound _ r L)
      as (s & _ & [[-> T] | (_ & _ & [(s2 & ->) | (how & s2 & ->)])]).
    + exists (report ext options flags s). split; [reflexivity |].
      destruct (report_state ext options flags s T)
        as (_ & _ & (tail & -> & Ht & _) & _).
      rewrite attempts_app. cbn [state_of] in Ha.
      change (attempts (PrintFoundRange (not_working s) (working s) :: tail))
        with (attempts tail).
      rewrite Ht. lia.
    + eexists. split; [reflexivity | exact Ha].
    + eexists. split; [reflexivity | exact Ha].
  - intros s s' Hit W. subst W.
    destruct (iteration_cases ext options flags s s' Hit)
      as (_ & [(C & -> & ->) | (C & -> & ->)]); unfold next_candidate.
    + split; [intros _ | intros F; contradiction].
      rewrite <- half_up. lia.
    + split; [intros F | intros _; lia].
      exfalso. rewrite F in C. destruct C; discriminate.
Qed.

Lemma search_terminates_within_log_bound_witness :
  let options := search_options "d8" None None 32 in
  (initial_not_working options < initial_working options /\
   1 <= find_min_xmx_range_size options) /\
  exists r,
    while_loop (needs_memory 4000) 8 options plain_flags
      (initial_state options tt) = Some r /\
    (attempts (printed (state_of r)) <= 8)%nat /\
    (forall B, monotonic (needs_memory 4000) options plain_flags B ->
       exists s, r = Normal s /\ loop_test options s = false).
Proof.
  intros options. split.
  - split; cbn; lia.
  - apply (search_terminates_within_log_bound (needs_memory 4000) options
             plain_flags tt).
    + cbn; lia.
    + cbn; lia.
Defined.

(** C3 fails as stated.  From the bounds 1 and 4 the candidate is 3, and a
    successful attempt leaves the width 2, which is [ceil (3 / 2)] and not
    [floor (3 / 2) = 1]; a failed one leaves the width 1.  And for bounds
    closer than half the range, such as 100 and 101 with the range 32, the
    stated bound is negative while the number of iterations is 0. *)
Lemma width_after_success_is_rounded_up :
  let options := search_options "d8" (Some 1) (Some 4) 1 in
  let s0 := initial_state options [(0, "")] in
  let s1 := initial_state options [(42, "")] in
  let near := search_options "d8" (Some 100) (Some 101) 32 in
  (exists s',
     iteration scripted options plain_flags s0 s' /\ exit_code s' = 0 /\
     working s' - not_working s' = 2 /\
     working s' - not_working s' <> (working s0 - not_working s0) / 2) /\
  (exists s',
     iteration scripted options plain_flags s1 s' /\
     exit_code s' = OOM_EXIT_CODE /\
     working s' - not_working s' = 1 /\
     working s' - not_working s' <> (working s1 - not_working s1 + 1) / 2) /\
  ceil_log2_ratio (initial_working near - initial_not_working near)
    (find_min_xmx_range_size near) = -5 /\
  exists sf,
    find_min_xmx scripted 0 near plain_flags [] [] = Some (Return 0 sf) /\
    attempts (printed sf) = 0%nat.
Proof.
  cbv zeta. split; [| split; [| split]].
  - eexists. split; [split; reflexivity |]. cbn.
    repeat split; discriminate.
  - eexists. split; [split; reflexivity |]. cbn.
    repeat split; discriminate.
  - reflexivity.
  - eexists. split; reflexivity.
Qed.

(** C1, as amended.  With a range of at least 1, an attempt that answers 0
    from the boundary [B] on and the out-of-memory or the timeout-kill
    code below it, and initial bounds [not_working0 < B <= working0], the
    loop ends by its test with bounds [not_working < B <= working] that
    are at most the range apart; the call prints them as the found range
    and, when the result is not to be archived, returns 0. *)
Theorem bisection_brackets_boundary {World : Type}
    (ext : Collaborators World) (options : Options) (flags : Flag.t)
    (w : World) (B : Z) :
  1 <= find_min_xmx_range_size options ->
  monotonic ext options flags B ->
  initial_not_working options < B <= initial_working options ->
  exists fuel s,
    while_loop ext fuel options flags (initial_state options w)
      = Some (Normal s) /\
    not_working s < B <= working s /\
    working s - not_working s <= find_min_xmx_range_size options /\
    exists r,
      find_min_xmx ext fuel options flags [] w = Some r /\
      not_working (state_of r) = not_working s /\
      working (state_of r) = working s /\
      (exists tail,
         printed (state_of r) =
           printed s ++ PrintFoundRange (not_working s) (working s) :: tail) /\
      (find_min_xmx_archive options = false -> exists sf, r = Return 0 sf).
Proof.
  intros Hr M H0.
  destruct (while_loop_terminates ext options flags (initial_state options w) Hr)
    as (fuel & r & L).
  destruct (monotonic_completes ext options flags B fuel w r M L)
    as (s & -> & R & T).
  exists fuel, s. split; [exact L |].
  pose proof (reaches_boundary ext options flags B (initial_state options w) s
                M H0 R) as Hb.
  split; [exact Hb |]. split; [apply loop_test_false; exact T |].
  exists (report ext options flags s).
  rewrite find_min_xmx_unfold, L. split; [reflexivity |].
  destruct (report_state ext options flags s T)
    as (Hw & Hn & (tail & Hp & _) & _).
  split; [exact Hn |]. split; [exact Hw |].
  split; [exists tail; exact Hp |].
  intros A.
  destruct (report_returns ext options flags s T A) as (sf & E & _).
  exists sf. exact E.
Qed.

Lemma bisection_brackets_boundary_witness :
  let options := search_options "d8" None None 32 in
  (1 <= find_min_xmx_range_size options /\
   monotonic (needs_memory 4000) options plain_flags 4000 /\
   initial_not_working options < 4000 <= initial_working options) /\
  exists fuel s,
    while_loop (needs_memory 4000) fuel options plain_flags
      (initial_state options tt) = Some (Normal s) /\
    not_working s < 4000 <= working s /\
    working s - not_working s <= find_min_xmx_range_size options /\
    exists r,
      find_min_xmx (needs_memory 4000) fuel options plain_flags [] tt
        = Some r /\
      not_working (state_of r) = not_working s /\
      working (state_of r) = working s /\
      (exists tail,
         printed (state_of r) =
           printed s ++ PrintFoundRange (not_working s) (working s) :: tail) /\
      (find_min_xmx_archive options = false -> exists sf, r = Return 0 sf).
Proof.
  intros options. split.
  - split; [cbn; lia |].
    split; [apply needs_memory_monotonic; reflexivity | cbn; lia].
  - apply (bisection_brackets_boundary (needs_memory 4000) options
             plain_flags tt 4000).
    + cbn; lia.
    + apply needs_memory_monotonic; reflexivity.
    + cbn; lia.
Defined.

(** With a range of 0, bounds that are 1 apart and an attempt that succeeds
    at the upper bound, the body leaves the state as it is. *)
Lemma range_zero_never_ends (fuel : nat) (s : search_state) :
  working s = 2 -> not_working s = 1 ->
  while_loop (needs_memory 2) fuel (search_options "d8" (Some 1) (Some 2) 0)
    plain_flags s = None.
Proof.
  revert s. induction fuel as [| fuel IH]; intros s Hw Hn;
    cbn [while_loop]; unfold loop_test; rewrite Hw, Hn;
    cbn [find_min_xmx_range_size search_options Z.sub Z.ltb Z.compare
         Z.opp Z.add Z.pos_sub Pos.pred_double Pos.compare Pos.compare_cont];
    [reflexivity |].
  assert (C : next_candidate s = 2).
  { unfold next_candidate. rewrite Hw, Hn. reflexivity. }
  pose proof (needs_memory_attempt 2 "d8" (Some 1) (Some 2) 0
                (next_candidate s) (world s) eq_refl) as HA.
  destruct (loop_body_cases (needs_memory 2)
              (search_options "d8" (Some 1) (Some 2) 0) plain_flags s)
    as [[_ E] | [[F _] | [[F _] | [(c & F & O & _) | (N & _)]]]].
  - rewrite E. apply IH; [exact C | exact Hn].
  - rewrite HA, C in F. discriminate F.
  - rewrite HA, C in F. discriminate F.
  - rewrite HA, C in F. injection F as <-. destruct O as [O _].
    exfalso. apply O. reflexivity.
  - exfalso. apply (N 0). rewrite HA, C. reflexivity.
Qed.

(** C1 fails as stated, in two ways.  With the range 0, the bounds 1 and 2
    and a compiler that needs 2 megabytes, the attempt is monotonic with
    the boundary 2 between the bounds, the candidate is 2 in every
    iteration, and the loop never ends.  And with a compiler that needs
    4000 megabytes and exits with 1 below that, leaving nothing on
    stderr, the attempt succeeds exactly from 4000 on, the second
    candidate, 2144, fails, and the search gives up with the status 2
    and bounds that are 4032 apart. *)
Lemma range_zero_search_diverges :
  let options := search_options "d8" (Some 1) (Some 2) 0 in
  let wide := search_options "d8" None None 32 in
  (monotonic (needs_memory 2) options plain_flags 2 /\
   initial_not_working options < 2 <= initial_working options /\
   forall fuel,
     while_loop (needs_memory 2) fuel options plain_flags
       (initial_state options tt) = None) /\
  (succeeds_from (fails_below 4000 1) wide plain_flags 4000 /\
   1 <= find_min_xmx_range_size wide /\
   initial_not_working wide < 4000 <= initial_working wide /\
   forall fuel, (2 <= fuel)%nat ->
     exists s,
       while_loop (fails_below 4000 1) fuel wide plain_flags
         (initial_state wide tt) = Some (Return 2 s) /\
       find_min_xmx (fails_below 4000 1) fuel wide plain_flags [] tt
         = Some (Return 2 s) /\
       candidates (printed s) = [4160; 2144] /\
       working s - not_working s = 4032 /\
       ~ working s - not_working s <= find_min_xmx_range_size wide).
Proof.
  cbv zeta. split.
  - split; [apply needs_memory_monotonic; reflexivity |].
    split; [cbn; lia |].
    intros fuel. apply range_zero_never_ends; reflexivity.
  - split; [apply fails_below_succeeds_from; [discriminate | reflexivity] |].
    split; [cbn; lia |]. split; [cbn; lia |].
    intros fuel Hle.
    destruct fuel as [| [| fuel]]; [lia | lia |].
    eexists. split; [reflexivity |]. split; [reflexivity |].
    split; [reflexivity |]. split; [reflexivity |]. cbn. lia.
Qed.

(** ** The scenarios of the specification, evaluated *)

(** Scenario A: bounds 128 and 8192, range 32, success from 4000 on. *)
Example scenario_monotonic_4000 :
  option_map (fun r => (not_working (state_of r), working (state_of r),
                        attempts (printed (state_of r))))
    (find_min_xmx (needs_memory 4000) 8
       (search_options "d8" None None 32) plain_flags [] tt)
  = Some (3971, 4003, 8%nat).
Proof. vm_compute. reflexivity. Qed.

(** Scenario B: every attempt succeeds. *)
Example scenario_always_success :
  option_map (fun r => (not_working (state_of r), working (state_of r),
                        attempts (printed (state_of r))))
    (find_min_xmx scripted 8 (search_options "d8" None None 32)
       plain_flags [] [])
  = Some (128, 160, 8%nat).
Proof. vm_compute. reflexivity. Qed.

(** Scenario D: bounds 100 and 132 with the range 32. *)
Example scenario_within_tolerance :
  find_min_xmx scripted 0 (search_options "d8" (Some 100) (Some 132) 32)
    plain_flags [] []
  = Some (Return 0 {| working := 132; not_working := 100; exit_code := 0;
                      world := []; printed := [PrintFoundRange 100 132] |}).
Proof. reflexivity. Qed.

(** A timeout above the boundary: the first attempt, at 4160, is killed
    and every later one succeeds; the reported upper bound, 4192, is not
    below 4160. *)
Example scenario_spurious_timeout :
  option_map (fun r => (not_working (state_of r), working (state_of r)))
    (find_min_xmx scripted 8 (search_options "d8" None None 32) plain_flags
       [] [(-9, "")])
  = Some (4160, 4192).
Proof. vm_compute. reflexivity. Qed.
(** * Further properties of run_on_app.py *)

(** ** The heap ceiling of a run *)

Lemma contains_xmx (t : string) : contains "-Xmx" ("-Xmx" ++ t) = true.
Proof. cbn [append contains]. destruct t; reflexivity. Qed.

(** X1.  [run_with_options] always launches with a heap ceiling: it keeps
    the arguments of the caller in place and adds at most one, after them;
    the result has an argument with [-Xmx], adding a ceiling twice changes
    nothing, and the ceiling of a candidate of the search is left alone
    whatever [--max-memory] is. *)
Theorem run_always_has_heap_ceiling (options : Options)
    (extra_args : list string) :
  existsb (contains "-Xmx") (with_default_xmx options extra_args) = true /\
  (exists added,
     with_default_xmx options extra_args = extra_args ++ added /\
     (List.length added <= 1)%nat /\
     (existsb (contains "-Xmx") extra_args = true -> added = [])) /\
  with_default_xmx options (with_default_xmx options extra_args) =
    with_default_xmx options extra_args /\
  forall ceiling,
    with_default_xmx options [xmx_argument ceiling] = [xmx_argument ceiling].
Proof.
  assert (A : existsb (contains "-Xmx") (with_default_xmx options extra_args)
              = true).
  { unfold with_default_xmx.
    destruct (existsb (contains "-Xmx") extra_args) eqn:E; [exact E |].
    destruct (max_memory options) as [m |]; [destruct (m =? 0) |];
      rewrite existsb_app; cbn [existsb];
      try rewrite contains_xmx; try reflexivity;
      rewrite orb_true_r; reflexivity. }
  split; [exact A |]. split; [| split].
  - unfold with_default_xmx.
    destruct (existsb (contains "-Xmx") extra_args) eqn:E.
    + exists []. rewrite app_nil_r. repeat split; cbn; lia.
    + destruct (max_memory options) as [m |]; [destruct (m =? 0) |];
        eexists; (split; [reflexivity |]); split; cbn; try lia; discriminate.
  - unfold with_default_xmx at 1. rewrite A. reflexivity.
  - intros ceiling. apply xmx_argument_has_ceiling.
Qed.

(** ** Runs that launch nothing *)

Section NoLaunch.

Context {World : Type}.
Variable ext : Collaborators World.
Variable run' : Options -> Flag.t -> list string -> World -> Z * string * World.
Variable options : Options.
Variable flags : Flag.t.

Local Abbreviation ext' := (with_toolhelper_run ext run').

Hypothesis dumps : truthy_string (dump_args_file options) = true.

Lemma run_with_options_no_launch (extra_args : list string) (w : World) :
  run_with_options ext' options flags extra_args w =
  run_with_options ext options flags extra_args w.
Proof.
  unfold run_with_options.
  change (checks ext' options flags w) with (checks ext options flags w).
  destruct (checks ext options flags w) as [[version_id data] | | |];
    try reflexivity.
  cbn [with_toolhelper_run known_configuration].
  destruct (known_configuration ext data version_id (get_type options flags));
    [| reflexivity].
  cbn [negb]. rewrite dumps. reflexivity.
Qed.

Lemma loop_body_no_launch (s : search_state) :
  loop_body ext' options flags s = loop_body ext options flags s.
Proof.
  unfold loop_body. rewrite run_with_options_no_launch. reflexivity.
Qed.

Lemma while_loop_no_launch (fuel : nat) (s : search_state) :
  while_loop ext' fuel options flags s = while_loop ext fuel options flags s.
Proof.
  revert s. induction fuel as [| fuel IH]; intros s; cbn [while_loop];
    [reflexivity |].
  rewrite loop_body_no_launch.
  destruct (loop_test options s); [| reflexivity].
  destruct (loop_body ext options flags s); try reflexivity. apply IH.
Qed.

Lemma find_min_xmx_no_launch (fuel : nat) (args : list string) (w : World) :
  find_min_xmx ext' fuel options flags args w =
  find_min_xmx ext fuel options flags args w.
Proof.
  unfold find_min_xmx. rewrite while_loop_no_launch. reflexivity.
Qed.

End NoLaunch.

Lemma candidates_app (l1 l2 : list event) :
  candidates (l1 ++ l2) = candidates l1 ++ candidates l2.
Proof.
  induction l1 as [| e l1 IH]; [reflexivity |].
  destruct e; cbn; rewrite IH; reflexivity.
Qed.

Lemma answers_app (l1 l2 : list event) :
  answers (l1 ++ l2) = answers l1 ++ answers l2.
Proof.
  induction l1 as [| e l1 IH]; [reflexivity |].
  destruct e; cbn; rewrite IH; reflexivity.
Qed.

(** What one execution of the body adds to the log: its candidate, and the
    answer of its attempt when there is one. *)
Lemma loop_body_log {World : Type} (ext : Collaborators World)
    (options : Options) (flags : Flag.t) (s : search_state) :
  let r := fst (attempt ext options flags (next_candidate s) (world s)) in
  let s' := state_of (loop_body ext options flags s) in
  candidates (printed s') = candidates (printed s) ++ [next_candidate s] /\
  answers (printed s') =
    answers (printed s) ++
    match r with Returned code => [code] | _ => [] end.
Proof.
  cbv zeta.
  destruct (loop_body_cases ext options flags s)
    as [[C E] | [[C E] | [[C E] | [(c & C & _ & E) | (N & s' & E & _ & _ & P)]]]];
    rewrite E; cbn [state_of printed].
  1-4: rewrite C; unfold body_log;
    repeat rewrite candidates_app; repeat rewrite answers_app;
    cbn [candidates answers]; repeat rewrite app_nil_r;
    split; reflexivity.
  rewrite P, candidates_app, answers_app. cbn [candidates answers].
  split; [reflexivity |].
  destruct (fst (attempt ext options flags (next_candidate s) (world s)))
    as [code | | |]; try reflexivity.
  exfalso. exact (N code eq_refl).
Qed.

Lemma run_with_options_dump {World : Type} (ext : Collaborators World)
    (options : Options) (flags : Flag.t) (extra_args : list string)
    (w : World) (version_id : string) (data : data_module) :
  checks ext options flags w = Returned (version_id, data) ->
  known_configuration ext data version_id (get_type options flags) = true ->
  truthy_string (dump_args_file options) = true ->
  truthy_string (Flag.print_dexsegments flags) = false ->
  run_with_options ext options flags extra_args w =
  (Returned 0, write_args_file ext options w).
Proof.
  intros C K D P. unfold run_with_options. rewrite C, K, D.
  apply after_run_plain. exact P.
Qed.

(** X2.  With [--dump-args-file] the search launches no compiler.  When
    the checks pass, the configuration is known and no segment report is
    asked for, every attempt answers 0 after writing the argument file,
    so with a range of at least 1 the loop ends by its test with the
    lower bound it started from, and the call returns 0 when the result
    is not to be archived.  And whatever the checks and the tables say,
    the result of the call is the same for every compiler. *)
Theorem dump_args_search_launches_nothing {World : Type}
    (ext : Collaborators World) (options : Options) (flags : Flag.t)
    (w : World) (version_id : string) (data : data_module) :
  (forall w', checks ext options flags w' = Returned (version_id, data)) ->
  known_configuration ext data version_id (get_type options flags) = true ->
  truthy_string (dump_args_file options) = true ->
  truthy_string (Flag.print_dexsegments flags) = false ->
  1 <= find_min_xmx_range_size options ->
  (exists fuel s,
     while_loop ext fuel options flags (initial_state options w)
       = Some (Normal s) /\
     not_working s = initial_not_working options /\
     Forall (fun code => code = 0) (answers (printed s)) /\
     (find_min_xmx_archive options = false ->
      exists sf,
        find_min_xmx ext fuel options flags [] w = Some (Return 0 sf) /\
        not_working sf = initial_not_working options /\
        answers (printed sf) = answers (printed s))) /\
  forall run' fuel args,
    find_min_xmx (with_toolhelper_run ext run') fuel options flags args w =
    find_min_xmx ext fuel options flags args w.
Proof.
  intros C K D P Hr. split.
  - assert (A : forall s,
              attempt ext options flags (next_candidate s) (world s) =
              (Returned 0, write_args_file ext options (world s))).
    { intros s. unfold attempt.
      exact (run_with_options_dump ext options flags _ _ _ _ (C _) K D P). }
    assert (Inv : forall s,
              reaches ext options flags (initial_state options w) s ->
              not_working s = initial_not_working options /\
              Forall (fun code => code = 0) (answers (printed s))).
    { induction 1 as [| s s' _ [IHn IHa] [_ B]].
      - split; [reflexivity | constructor].
      - pose proof (loop_body_log ext options flags s) as [_ La].
        rewrite B, A in La. cbn [state_of fst] in La.
        destruct (loop_body_normal ext options flags s s' B)
          as (code & E & _ & _ & [(_ & _ & Hn & _) | (F & _)]).
        + split; [congruence |]. rewrite La. apply Forall_app.
          split; [exact IHa | repeat constructor].
        + exfalso. rewrite A in E. injection E as <-.
          destruct F; discriminate. }
    destruct (while_loop_terminates ext options flags
                (initial_state options w) Hr) as (fuel & r & L).
    destruct (while_loop_sound ext options flags fuel _ r L)
      as (s & R & [[-> T] | (_ & B & [(s2 & ->) | (how & s2 & ->)])]).
    + destruct (Inv s R) as [In0 Ia].
      exists fuel, s. split; [exact L |]. split; [exact In0 |].
      split; [exact Ia |]. intros Ar.
      destruct (report_returns ext options flags s T Ar)
        as (sf & E & _ & Hn & _ & _ & Hp).
      exists sf. rewrite find_min_xmx_unfold, L, E.
      split; [reflexivity |]. split; [congruence |].
      rewrite Hp, answers_app. cbn [answers]. apply app_nil_r.
    + exfalso.
      destruct (loop_body_return ext options flags s s2 2 B)
        as (c & E & _ & (O & _) & _).
      rewrite A in E. injection E as <-. apply O. reflexivity.
    + exfalso.
      destruct (loop_body_cases ext options flags s)
        as [[_ E] | [[_ E] | [[_ E] | [(c & _ & _ & E) | (N & _)]]]];
        try (rewrite E in B; discriminate).
      apply (N 0). rewrite A. reflexivity.
  - intros run' fuel args. apply find_min_xmx_no_launch. exact D.
Qed.

Lemma dump_args_search_launches_nothing_witness :
  let options := dumping (search_options "d8" None None 32) "args.txt" in
  let w := [(1, "never launched")] in
  exists fuel s,
    while_loop scripted fuel options plain_flags (initial_state options w)
      = Some (Normal s) /\
    not_working s = initial_not_working options /\
    Forall (fun code => code = 0) (answers (printed s)) /\
    (find_min_xmx_archive options = false ->
     exists sf,
       find_min_xmx scripted fuel options plain_flags [] w
         = Some (Return 0 sf) /\
       not_working sf = initial_not_working options /\
       answers (printed sf) = answers (printed s)).
Proof.
  intros options w.
  apply (dump_args_search_launches_nothing scripted options plain_flags w
           "cf" r8_data).
  - intros w'. reflexivity.
  - reflexivity.
  - reflexivity.
  - reflexivity.
  - cbn. lia.
Defined.

(** X3.  When the checks pass and the tables do not list the requested
    version or type, [run_with_options] answers 1 without launching, and a
    search whose initial bounds are further apart than the range returns
    2 after this one attempt, with the world as it was. *)
Theorem unknown_configuration_fails_first_attempt {World : Type}
    (ext : Collaborators World) (options : Options) (flags : Flag.t)
    (fuel : nat) (w : World) (version_id : string) (data : data_module) :
  checks ext options flags w = Returned (version_id, data) ->
  known_configuration ext data version_id (get_type options flags) = false ->
  (forall extra_args,
     run_with_options ext options flags extra_args w = (Returned 1, w)) /\
  (loop_test options (initial_state options w) = true ->
   find_min_xmx ext (S fuel) options flags [] w =
   Some (Return 2
     {| working := initial_working options;
        not_working := initial_not_working options;
        exit_code := 1; world := w;
        printed :=
          [PrintCandidate (initial_working options)
             (initial_not_working options)
             (next_candidate (initial_state options w));
           RunWithOptions
             [xmx_argument (next_candidate (initial_state options w))] 1;
           PrintRunningTook; PrintNonOOMTimeoutError] |})).
Proof.
  intros C K.
  assert (A : forall extra_args,
            run_with_options ext options flags extra_args w = (Returned 1, w)).
  { intros extra_args. unfold run_with_options. rewrite C, K. reflexivity. }
  split; [exact A |].
  intros T. rewrite find_min_xmx_unfold. cbn [while_loop]. rewrite T.
  unfold loop_body. cbn [initial_state world]. rewrite A. reflexivity.
Qed.

Lemma unknown_configuration_fails_first_attempt_witness :
  let options := search_options "r8" None None 32 in
  (forall extra_args,
     run_with_options unlisted options plain_flags extra_args tt
       = (Returned 1, tt)) /\
  (loop_test options (initial_state options tt) = true ->
   find_min_xmx unlisted 1 options plain_flags [] tt =
   Some (Return 2
     {| working := 8192; not_working := 1024; exit_code := 1; world := tt;
        printed :=
          [PrintCandidate 8192 1024 4608;
           RunWithOptions ["-Xmx4608M"] 1;
           PrintRunningTook; PrintNonOOMTimeoutError] |})).
Proof.
  intros options.
  exact (unknown_configuration_fails_first_attempt unlisted options
           plain_flags 0 tt "cf" r8_data eq_refl eq_refl).
Defined.

(** ** The ceilings the search tries *)

Lemma reaches_candidates {World : Type} (ext : Collaborators World)
    (options : Options) (flags : Flag.t) (w : World) (s : search_state) :
  1 <= find_min_xmx_range_size options ->
  initial_not_working options < initial_working options ->
  reaches ext options flags (initial_state options w) s ->
  initial_not_working options <= not_working s /\
  not_working s < working s /\
  working s <= initial_working options /\
  NoDup (candidates (printed s)) /\
  Forall (fun c =>
            initial_not_working options < c < initial_working options /\
            (c <= not_working s \/ working s <= c))
         (candidates (printed s)) /\
  List.length (candidates (printed s)) = attempts (printed s).
Proof.
  intros Hr H0.
  induction 1 as [| s s' R (Il & Ib & Iu & Id & If & Ic) Hit].
  - cbn. repeat split; try lia; constructor.
  - pose proof Hit as [T B]. apply loop_test_true in T.
    pose proof (half_bounds (working s - not_working s) ltac:(lia)) as Hh.
    assert (Hc : not_working s < next_candidate s < working s).
    { unfold next_candidate. lia. }
    pose proof (loop_body_log ext options flags s) as [Lc _].
    rewrite B in Lc. cbn [state_of] in Lc.
    assert (Hnew : ~ In (next_candidate s) (candidates (printed s))).
    { intros Hin. rewrite Forall_forall in If.
      destruct (If _ Hin) as (_ & [Hlo | Hhi]); lia. }
    assert (Ha : attempts (printed s') = S (attempts (printed s))).
    { destruct (loop_body_normal ext options flags s s' B)
        as (code & _ & _ & _ &
            [(_ & _ & _ & ->) | (_ & _ & _ & tail & -> & Ht & _)]).
      - apply attempts_body_log.
      - rewrite attempts_app, attempts_body_log, Ht. lia. }
    destruct (iteration_cases ext options flags s s' Hit)
      as (_ & [(_ & Hw & Hn) | (_ & Hw & Hn)]);
      rewrite Hw, Hn, Lc, Ha;
      (split; [lia |]); (split; [lia |]); (split; [lia |]);
      (split; [apply NoDup_app;
                [exact Id | repeat constructor; intros []
                | intros a Ha1 [<- | []]; exact (Hnew Ha1)] |]);
      (split; [| rewrite length_app, Ic; cbn; lia]);
      apply Forall_app; split;
      try (repeat constructor; lia);
      (eapply Forall_impl; [| exact If]);
      cbn beta; intros c (Hin & [Hlo | Hhi]); split; try exact Hin; lia.
Qed.

(** X4.  With a range of at least 1 and initial bounds
    [not_working0 < working0], a finished search never tried a ceiling
    twice, tried only ceilings strictly between the initial bounds, and
    printed one candidate per attempt. *)
Theorem search_never_repeats_a_ceiling {World : Type}
    (ext : Collaborators World) (options : Options) (flags : Flag.t)
    (fuel : nat) (w : World) (r : completion) :
  1 <= find_min_xmx_range_size options ->
  initial_not_working options < initial_working options ->
  find_min_xmx ext fuel options flags [] w = Some r ->
  NoDup (candidates (printed (state_of r))) /\
  Forall (fun c => initial_not_working options < c < initial_working options)
    (candidates (printed (state_of r))) /\
  List.length (candidates (printed (state_of r))) =
    attempts (printed (state_of r)) /\
  initial_not_working options <= not_working (state_of r) /\
  working (state_of r) <= initial_working options.
Proof.
  intros Hr H0. rewrite find_min_xmx_unfold.
  destruct (while_loop ext fuel options flags (initial_state options w))
    as [c |] eqn:L; [| discriminate].
  destruct (while_loop_sound ext options flags fuel _ c L)
    as (s & R & [[-> T] | (T & B & Hstop)]);
    destruct (reaches_candidates ext options flags w s Hr H0 R)
      as (Il & Ib & Iu & Id & If & Ic).
  - intros H. inversion H; subst; clear H.
    destruct (report_state ext options flags s T)
      as (Hw & Hn & (tail & Hp & Ha & Hc & _) & _).
    rewrite Hw, Hn, Hp, candidates_app, attempts_app.
    change (candidates (PrintFoundRange (not_working s) (working s) :: tail))
      with (candidates tail).
    change (attempts (PrintFoundRange (not_working s) (working s) :: tail))
      with (attempts tail).
    rewrite Hc, Ha, app_nil_r, Nat.add_0_r.
    repeat split; try assumption; try lia.
    eapply Forall_impl; [| exact If]. cbn beta. intros c Hc'. apply Hc'.
  - pose proof (loop_body_log ext options flags s) as [Lc _].
    rewrite B in Lc.
    apply loop_test_true in T.
    pose proof (half_bounds (working s - not_working s) ltac:(lia)) as Hh.
    assert (Hcand : not_working s < next_candidate s < working s).
    { unfold next_candidate. lia. }
    assert (E : working (state_of c) = working s /\
                not_working (state_of c) = not_working s /\
                attempts (printed (state_of c)) = S (attempts (printed s))).
    { destruct Hstop as [(s2 & ->) | (how & s2 & ->)]; cbn [state_of].
      - destruct (loop_body_return ext options flags s s2 2 B)
          as (code & _ & _ & _ & Hw & Hn & _ & Hp).
        rewrite Hp, attempts_app, attempts_body_log. cbn. auto.
      - destruct (loop_body_cases ext options flags s)
          as [[_ E] | [[_ E] | [[_ E] |
              [(code & _ & _ & E) | (_ & s' & E & Hw & Hn & Hp)]]]];
          rewrite E in B; try discriminate.
        injection B as _ <-. rewrite Hp, attempts_app. cbn.
        split; [exact Hw |]. split; [exact Hn | lia]. }
    destruct E as (Hw & Hn & Ha).
    intros H.
    assert (r = c).
    { destruct Hstop as [(s2 & ->) | (how & s2 & ->)]; congruence. }
    subst r. rewrite Lc, Hw, Hn, Ha.
    split; [| split; [| split; [| split; lia]]].
    + apply NoDup_app; [exact Id | repeat constructor; intros [] |].
      intros a Ha1 [<- | []]. rewrite Forall_forall in If.
      destruct (If _ Ha1) as (_ & [Hlo | Hhi]); lia.
    + apply Forall_app. split; [| repeat constructor; lia].
      eapply Forall_impl; [| exact If]. cbn beta. intros k Hk. apply Hk.
    + rewrite length_app, Ic. cbn. lia.
Qed.

Lemma search_never_repeats_a_ceiling_witness :
  let options := search_options "d8" None None 32 in
  exists r,
    find_min_xmx (needs_memory 4000) 8 options plain_flags [] tt = Some r /\
    NoDup (candidates (printed (state_of r))) /\
    Forall (fun c => 128 < c < 8192) (candidates (printed (state_of r))) /\
    List.length (candidates (printed (state_of r))) =
      attempts (printed (state_of r)) /\
    128 <= not_working (state_of r) /\ working (state_of r) <= 8192.
Proof.
  intros options. eexists. split; [vm_compute; reflexivity |].
  apply (search_never_repeats_a_ceiling (needs_memory 4000) options
           plain_flags 8 tt).
  - cbn; lia.
  - cbn; lia.
  - vm_compute; reflexivity.
Defined.

(** ** Applications, versions and types *)

Lemma or_default_given (v d : string) :
  v <> "" -> or_default (Some v) d = v.
Proof. intros H. destruct v; [contradiction | reflexivity]. Qed.

(** X5.  [get_version_and_data] raises exactly when the application is
    not one of [APPS]; for an application of [data_providers] and a
    version that is given, as in the options [run_all] builds, it returns
    that version and the module [data_providers] has for the
    application. *)
Theorem get_version_and_data_known_apps (options : Options) :
  ((exists message, get_version_and_data options = Raised message) <->
   ~ (exists a, app options = Some a /\ In a APPS)) /\
  forall name data version c,
    In (name, data) data_providers -> version <> "" ->
    get_version_and_data (fixed_options options name version c) =
    Returned (version, data).
Proof.
  split.
  - unfold get_version_and_data, APPS.
    destruct (app options) as [a |].
    + destruct (String.eqb_spec a "gmscore") as [-> | N1];
        [split; [intros [m H]; discriminate H
                | intros H; exfalso; apply H; exists "gmscore"; cbn; auto 10] |].
      destruct (String.eqb_spec a "nest") as [-> | N2];
        [split; [intros [m H]; discriminate H
                | intros H; exfalso; apply H; exists "nest"; cbn; auto 10] |].
      destruct (String.eqb_spec a "youtube") as [-> | N3];
        [split; [intros [m H]; discriminate H
                | intros H; exfalso; apply H; exists "youtube"; cbn; auto 10] |].
      destruct (String.eqb_spec a "chrome") as [-> | N4];
        [split; [intros [m H]; discriminate H
                | intros H; exfalso; apply H; exists "chrome"; cbn; auto 10] |].
      destruct (String.eqb_spec a "gmail") as [-> | N5];
        [split; [intros [m H]; discriminate H
                | intros H; exfalso; apply H; exists "gmail"; cbn; auto 10] |].
      destruct (String.eqb_spec a "r8") as [-> | N6];
        [split; [intros [m H]; discriminate H
                | intros H; exfalso; apply H; exists "r8"; cbn; auto 10] |].
      destruct (String.eqb_spec a "iosched") as [-> | N7];
        [split; [intros [m H]; discriminate H
                | intros H; exfalso; apply H; exists "iosched"; cbn; auto 10] |].
      split; [| intros _; eexists; reflexivity].
      intros _ (a' & E & Hin). injection E as <-. cbn in Hin.
      intuition congruence.
    + cbn. split; [| intros _; eexists; reflexivity].
      intros _ (a' & E & _). discriminate E.
  - intros name data version c Hin Hv.
    unfold data_providers in Hin. cbn [In] in Hin.
    repeat (destruct Hin as [E | Hin];
            [injection E as <- <-; unfold get_version_and_data; cbn;
             rewrite (or_default_given version _ Hv); reflexivity |]).
    contradiction.
Qed.

(** X6.  When no type is given, [get_type] answers [deploy] for the
    compiler r8 and [proguarded] otherwise; the answer is one of [TYPES],
    and for a compiler of [COMPILERS] it is a type for which [run_all]
    chooses that same compiler. *)
Theorem get_type_default (options : Options) (flags : Flag.t) (c : string) :
  truthy_string (Flag.type flags) = false ->
  compiler options = Some c ->
  In c COMPILERS ->
  get_type options flags = (if String.eqb c "r8" then "deploy" else "proguarded") /\
  In (get_type options flags) TYPES /\
  (if String.eqb (get_type options flags) "deploy" then "r8" else "d8") = c.
Proof.
  intros T C Hin. unfold get_type. rewrite T, C. cbn [negb].
  destruct Hin as [<- | [<- | []]]; cbn; auto 10.
Qed.

Lemma get_type_default_witness :
  let options := search_options "r8" None None 32 in
  get_type options plain_flags = "deploy" /\
  In (get_type options plain_flags) TYPES /\
  (if String.eqb (get_type options plain_flags) "deploy" then "r8" else "d8")
    = "r8".
Proof.
  intros options.
  apply (get_type_default options plain_flags "r8").
  - reflexivity.
  - reflexivity.
  - cbn. auto.
Defined.

(** ** track_time_in_memory *)

Lemma rows_app (l1 l2 : list track_event) :
  rows (l1 ++ l2) = rows l1 ++ rows l2.
Proof.
  induction l1 as [| e l1 IH]; [reflexivity |].
  destruct e; cbn; rewrite IH; reflexivity.
Qed.

Lemma progression_length (start step : Z) (n : nat) :
  List.length (progression start step n) = n.
Proof.
  revert start. induction n as [| n IH]; intros start; cbn;
    [| rewrite IH]; reflexivity.
Qed.

(** The rows of a table are its ceilings. *)
Lemma rows_track_table (ceilings codes : list Z) :
  List.length codes = List.length ceilings ->
  map fst (rows (track_table (combine ceilings codes))) = ceilings /\
  List.length (track_table (combine ceilings codes))
    = (2 * List.length ceilings)%nat.
Proof.
  revert codes. induction ceilings as [| c ceilings IH]; intros codes H.
  - split; reflexivity.
  - destruct codes as [| code codes]; [discriminate H |].
    injection H as H. destruct (IH codes H) as [IHr IHl].
    cbn [combine track_table flat_map List.app rows map fst snd List.length].
    fold (track_table (combine ceilings codes)).
    rewrite IHr, IHl. split; [reflexivity | lia].
Qed.


Section Tracking.

Context {World : Type} (ext : Collaborators World).
Variable options : Options.
Variable flags : Flag.t.

Local Abbreviation increment := (Flag.track_time_in_memory_increment flags).

(** The loop with a positive increment: [n] runs when the [n]-th further
    ceiling is the first beyond the maximum. *)
Lemma track_loop_rows (maximum : Z) (n : nat) :
  Flag.track_time_in_memory_max flags = Some maximum ->
  0 < increment ->
  runs_answer ext options flags ->
  forall current w out,
    maximum < current + increment * Z.of_nat n ->
    (n = O \/ current + increment * (Z.of_nat n - 1) <= maximum) ->
    exists w' codes,
      track_loop ext n options flags current w out =
        Some (Returned tt, w',
              out ++ track_table
                       (combine (progression current increment n) codes)) /\
      List.length codes = n.
Proof.
  intros HM Hinc Hans. induction n as [| n IH]; intros current w out Hgt Hle.
  - exists w, []. cbn [track_loop]. rewrite HM.
    replace (current <=? maximum) with false by (symmetry; apply Z.leb_gt; lia).
    cbn. rewrite app_nil_r. split; reflexivity.
  - destruct Hle as [E | Hle]; [discriminate E |].
    cbn [track_loop]. rewrite HM.
    replace (current <=? maximum) with true by (symmetry; apply Z.leb_le; nia).
    destruct (Hans current w) as [code A].
    destruct (run_with_options ext options flags [xmx_argument current] w)
      as [how w1].
    cbn [fst] in A. subst how.
    match goal with |- context [track_loop _ _ _ _ ?c ?w0 ?o] =>
      destruct (IH c w0 o) as (w' & codes & L & Hlen) end.
    + lia.
    + destruct n as [| n]; [left; reflexivity | right; lia].
    + exists w', (code :: codes). rewrite L, <- app_assoc.
      split; [reflexivity | cbn; rewrite Hlen; reflexivity].
Qed.

(** The loop with a negative increment below the maximum never ends by its
    test. *)
Lemma track_loop_descends (maximum : Z) (fuel : nat) :
  Flag.track_time_in_memory_max flags = Some maximum ->
  increment < 0 ->
  forall current w out,
    current <= maximum ->
    match track_loop ext fuel options flags current w out with
    | Some (Returned _, _, _) => False
    | Some _ => ~ runs_answer ext options flags
    | None => True
    end.
Proof.
  intros HM Hinc. induction fuel as [| fuel IH]; intros current w out Hle;
    cbn [track_loop]; rewrite HM;
    replace (current <=? maximum) with true by (symmetry; apply Z.leb_le; lia);
    [exact I |].
  destruct (run_with_options ext options flags [xmx_argument current] w)
    as [how w1] eqn:R.
  destruct how as [code | m | | c];
    try (cbn [passed_on]; intros Hans; destruct (Hans current w) as [code A];
         rewrite R in A; discriminate A).
  apply IH. lia.
Qed.

End Tracking.

(** X7.  With both ends given and not 0, a positive increment and runs that
    answer, [track_time_in_memory] returns 0 after one run at each of the
    ceilings [min], [min + increment], ... up to the maximum, whatever the
    runs answer: [(max - min) / increment + 1] runs when [min <= max], and
    none otherwise.  After the header the log has, for each ceiling in
    turn, the call with the argument [-Xmx<ceiling>M] and then the row of
    the ceiling, with a time exactly when the call answered 0. *)
Theorem track_time_rows {World : Type} (ext : Collaborators World)
    (options : Options) (flags : Flag.t) (w : World) (lower upper : Z) :
  Flag.track_time_in_memory_min flags = Some lower -> lower <> 0 ->
  Flag.track_time_in_memory_max flags = Some upper -> upper <> 0 ->
  0 < Flag.track_time_in_memory_increment flags ->
  runs_answer ext options flags ->
  let n :=
    Z.to_nat (if lower <=? upper
              then (upper - lower) / Flag.track_time_in_memory_increment flags + 1
              else 0) in
  let ceilings :=
    progression lower (Flag.track_time_in_memory_increment flags) n in
  exists w' codes,
    track_time_in_memory ext n options flags [] w
      = Some (Returned 0, w',
              TrackHeader :: track_table (combine ceilings codes)) /\
    List.length codes = n /\
    map fst (rows (track_table (combine ceilings codes))) = ceilings /\
    List.length (track_table (combine ceilings codes)) = (2 * n)%nat.
Proof.
  intros Hmin Hl Hmax Hu Hinc Hans n ceilings.
  unfold track_time_in_memory. rewrite Hmin, Hmax.
  cbn [List.length Nat.eqb negb truthy].
  apply Z.eqb_neq in Hl, Hu. rewrite Hl, Hu. cbn [negb].
  replace (Flag.track_time_in_memory_increment flags =? 0) with false
    by (symmetry; apply Z.eqb_neq; lia).
  set (inc := Flag.track_time_in_memory_increment flags) in *.
  destruct (track_loop_rows ext options flags upper n Hmax Hinc Hans lower w
              [TrackHeader]) as (w' & codes & L & Hlen).
  - subst n. fold inc. destruct (Z.leb_spec lower upper) as [Hle | Hgt].
    + pose proof (Z.div_pos (upper - lower) inc ltac:(lia) Hinc).
      rewrite Z2Nat.id by lia.
      pose proof (Z.mul_succ_div_gt (upper - lower) inc Hinc). lia.
    + cbn. lia.
  - subst n. fold inc. destruct (Z.leb_spec lower upper) as [Hle | Hgt].
    + right.
      pose proof (Z.div_pos (upper - lower) inc ltac:(lia) Hinc).
      rewrite Z2Nat.id by lia.
      pose proof (Z.mul_div_le (upper - lower) inc Hinc). lia.
    + left. reflexivity.
  - exists w', codes. fold inc in L. rewrite L.
    split; [reflexivity |]. split; [exact Hlen |].
    destruct (rows_track_table ceilings codes) as [Hr Hn].
    { subst ceilings. rewrite progression_length. exact Hlen. }
    split; [exact Hr |]. rewrite Hn. subst ceilings.
    rewrite progression_length. reflexivity.
Qed.

Lemma scripted_runs_answer (c : string) (mn mx : option Z) (r : Z)
    (flags : Flag.t) :
  existsb (String.eqb c) COMPILERS = true ->
  Flag.ignore_java_version flags = false ->
  Flag.compiler_build flags = "lib" ->
  Flag.print_memoryuse flags = None ->
  Flag.print_dexsegments flags = None ->
  runs_answer scripted (search_options c mn mx r) flags.
Proof.
  intros C J B M D ceiling w. unfold run_with_options, checks, after_run.
  rewrite J, B, M, D.
  cbn [scripted java_version_output search_options compiler].
  rewrite C.
  change (check_java_version openjdk_output) with (Returned tt).
  cbn -[with_default_xmx failure_exit_code].
  destruct w as [| [code text] rest]; [eexists; reflexivity |].
  destruct (code =? 0); eexists; reflexivity.
Qed.

Lemma track_time_rows_witness :
  let flags := tracking (Some 100) (Some 200) 40 in
  exists w' codes,
    track_time_in_memory scripted 3 (search_options "d8" None None 32)
      flags [] [(42, ""); (1, "")]
      = Some (Returned 0, w',
              TrackHeader :: track_table (combine [100; 140; 180] codes)) /\
    List.length codes = 3%nat /\
    map fst (rows (track_table (combine [100; 140; 180] codes)))
      = [100; 140; 180] /\
    List.length (track_table (combine [100; 140; 180] codes)) = 6%nat.
Proof.
  intros flags.
  apply (track_time_rows scripted (search_options "d8" None None 32) flags
           [(42, ""); (1, "")] 100 200);
    try reflexivity; try (cbn; lia).
  apply scripted_runs_answer; reflexivity.
Defined.


(** X9.  With a negative increment and [min <= max], both not 0,
    [track_time_in_memory] never returns: the ceilings only go down and
    the loop condition [current <= max] holds for ever, so the call goes
    on until a run raises, and for ever when every run answers. *)
Theorem track_time_negative_increment_diverges {World : Type}
    (ext : Collaborators World) (options : Options) (flags : Flag.t)
    (w : World) (lower upper : Z) :
  Flag.track_time_in_memory_min flags = Some lower -> lower <> 0 ->
  Flag.track_time_in_memory_max flags = Some upper -> upper <> 0 ->
  Flag.track_time_in_memory_increment flags < 0 ->
  lower <= upper ->
  (forall fuel status w' out,
     track_time_in_memory ext fuel options flags [] w
       <> Some (Returned status, w', out)) /\
  (runs_answer ext options flags ->
   forall fuel, track_time_in_memory ext fuel options flags [] w = None).
Proof.
  intros Hmin Hl Hmax Hu Hinc Hle.
  assert (U : forall fuel,
            track_time_in_memory ext fuel options flags [] w =
            match track_loop ext fuel options flags lower w [TrackHeader] with
            | None => None
            | Some (Returned _, w', out) => Some (Returned 0, w', out)
            | Some (Raised message, w', out) => Some (Raised message, w', out)
            | Some (AssertionFailed, w', out) => Some (AssertionFailed, w', out)
            | Some (SystemExit status, w', out) =>
                Some (SystemExit status, w', out)
            end).
  { intros fuel. unfold track_time_in_memory. rewrite Hmin, Hmax.
    cbn [List.length Nat.eqb negb truthy].
    apply Z.eqb_neq in Hl, Hu. rewrite Hl, Hu. cbn [negb].
    replace (Flag.track_time_in_memory_increment flags =? 0) with false
      by (symmetry; apply Z.eqb_neq; lia).
    reflexivity. }
  split.
  - intros fuel status w' out. rewrite U.
    pose proof (track_loop_descends ext options flags upper fuel Hmax Hinc
                  lower w [TrackHeader] Hle) as D.
    destruct (track_loop ext fuel options flags lower w [TrackHeader])
      as [[[how w1] out1] |]; [| discriminate].
    destruct how; [contradiction | discriminate ..].
  - intros Hans fuel. rewrite U.
    pose proof (track_loop_descends ext options flags upper fuel Hmax Hinc
                  lower w [TrackHeader] Hle) as D.
    destruct (track_loop ext fuel options flags lower w [TrackHeader])
      as [[[how w1] out1] |]; [| reflexivity].
    destruct how; [contradiction | exfalso; exact (D Hans) ..].
Qed.

Lemma track_time_negative_increment_diverges_witness :
  let options := search_options "d8" None None 32 in
  let flags := tracking (Some 100) (Some 200) (-32) in
  (100 <= 200 /\ -32 < 0) /\
  (forall fuel status w' out,
     track_time_in_memory scripted fuel options flags [] []
       <> Some (Returned status, w', out)) /\
  (runs_answer scripted options flags ->
   forall fuel, track_time_in_memory scripted fuel options flags [] [] = None).
Proof.
  intros options flags. split; [lia |].
  apply (track_time_negative_increment_diverges scripted options flags []
           100 200);
    try reflexivity; cbn; lia.
Defined.

(** ** get_permutations and run_all *)

Lemma enabled_iff (a v t : string) :
  enabled (a, v, t) = true <-> (a, v, t) <> ("youtube", "13.37", "deploy").
Proof.
  unfold enabled, DISABLED_PERMUTATIONS, same_permutation. cbn [existsb].
  rewrite orb_false_r, negb_true_iff.
  destruct (String.eqb_spec a "youtube") as [-> | Na];
    destruct (String.eqb_spec v "13.37") as [-> | Nv];
    destruct (String.eqb_spec t "deploy") as [-> | Nt]; cbn;
    split; intros H; try discriminate H; try congruence;
    exfalso; apply H; reflexivity.
Qed.

(** X10.  [get_permutations] yields a permutation exactly when the tables
    list the type for the version of the application and the triple is
    not the disabled one (youtube 13.37 deploy); it then yields it for
    both builds. *)
Theorem get_permutations_enabled
    (VERSIONS : data_module -> list (string * list string))
    (providers : list (string * data_module))
    (a v t : string) (use_r8lib : bool) :
  In (a, v, t, use_r8lib) (get_permutations VERSIONS providers) <->
  (exists data types,
     In (a, data) providers /\ In (v, types) (VERSIONS data) /\ In t types) /\
  (a, v, t) <> ("youtube", "13.37", "deploy").
Proof.
  unfold get_permutations. rewrite in_flat_map. split.
  - intros ([a' data] & Hp & H). rewrite in_flat_map in H.
    destruct H as ([v' types] & Hv & H). rewrite in_flat_map in H.
    destruct H as (t' & Ht & H).
    destruct (enabled (a', v', t')) eqn:E; [| contradiction].
    assert (Eq : (a', v', t') = (a, v, t)).
    { destruct H as [H | [H | []]]; congruence. }
    injection Eq as -> -> ->. split.
    + exists data, types. auto.
    + apply enabled_iff. exact E.
  - intros ((data & types & Hp & Hv & Ht) & Hen).
    exists (a, data). split; [exact Hp |]. rewrite in_flat_map.
    exists (v, types). split; [exact Hv |]. rewrite in_flat_map.
    exists t. split; [exact Ht |].
    apply enabled_iff in Hen. rewrite Hen.
    destruct use_r8lib; cbn; auto.
Qed.




(** ** main *)

(** X12.  [main] raises on its own, before any command runs, exactly when
    [--expect-oom] comes without a [--max-memory] that is not 0, or with
    a [--timeout] that is not 0, or when [--find-min-xmx] and
    [--track-time-in-memory] are both given; this holds for every amount
    of fuel. *)
Theorem main_checks_options {World : Type} (ext : Collaborators World)
    (run : Options -> Flag.t -> list string -> World -> Z * World)
    (VERSIONS : data_module -> list (string * list string))
    (providers : list (string * data_module))
    (fuel : nat) (options : Options) (flags : Flag.t) (args : list string)
    (w : World) :
  let conflict :=
    (Flag.expect_oom flags = true /\ truthy (max_memory options) = false) \/
    (Flag.expect_oom flags = true /\ Flag.timeout flags <> 0) \/
    (Flag.find_min_xmx flags = true /\
     Flag.track_time_in_memory flags = true) in
  (conflict ->
   exists message,
     main ext run VERSIONS providers fuel options flags args w
       = Some (Raised message, w, NothingRun)) /\
  (forall t w',
     main ext run VERSIONS providers fuel options flags args w
       = Some (t, w', NothingRun) -> conflict).
Proof.
  cbv zeta. unfold main.
  destruct (Flag.expect_oom flags) eqn:Eo;
    destruct (truthy (max_memory options)) eqn:Em; cbn [andb negb];
    try (split; [intros _; eexists; reflexivity
                | intros; left; split; reflexivity]);
    destruct (Z.eqb_spec (Flag.timeout flags) 0) as [Et | Nt]; cbn [negb];
    try (split; [intros _; eexists; reflexivity
                | intros; right; left; split; [reflexivity | exact Nt]]);
    destruct (Flag.find_min_xmx flags) eqn:Ef;
    destruct (Flag.track_time_in_memory flags) eqn:Ek; cbn [andb];
    try (split; [intros _; eexists; reflexivity
                | intros; right; right; split; reflexivity]);
    (split;
     [intros [[H1 H2] | [[H1 H2] | [H1 H2]]];
      try discriminate; contradiction |]);
    intros t w' H; exfalso;
    destruct (Flag.run_all flags);
    repeat match type of H with
           | context [match ?x with _ => _ end] => destruct x
           end;
    discriminate H.
Qed.





(** * Properties of utils.py *)

(** ** Archive names *)

Lemma substring_0_split (k : nat) (s : string) :
  exists dropped,
    s = (substring 0 k s ++ dropped)%string /\
    String.length (substring 0 k s) = Nat.min k (String.length s).
Proof.
  revert k. induction s as [| c s IH]; intros k.
  - exists "". destruct k; split; reflexivity.
  - destruct k as [| k].
    + exists (String c s). split; reflexivity.
    + destruct (IH k) as (dropped & E & L). exists dropped. cbn.
      rewrite <- E, L. split; reflexivity.
Qed.

(** X15.  [extract_dir] undoes the name [create_archive] returns; it does
    not look at the suffix: of any name of at least 7 characters it drops
    the last 7, and of a shorter name it still keeps a prefix, which is
    empty for names of up to 3 characters. *)
Theorem extract_dir_create_archive (name : string) :
  extract_dir (create_archive name) = name /\
  forall filename,
    exists dropped,
      filename = (extract_dir filename ++ dropped)%string /\
      ((7 <= String.length filename)%nat -> String.length dropped = 7%nat) /\
      ((String.length filename <= 3)%nat -> extract_dir filename = "").
Proof.
  split.
  - unfold extract_dir, create_archive, slice_to.
    rewrite length_append. cbn [String.length].
    replace (Z.of_nat (String.length name + 7) - Z.of_nat 7)
      with (Z.of_nat (String.length name)) by lia.
    replace (Z.of_nat (String.length name) <? 0) with false
      by (symmetry; apply Z.ltb_ge; lia).
    rewrite Z.min_l by lia. rewrite Nat2Z.id. apply substring_prefix.
  - intros filename. unfold extract_dir, slice_to. cbn [String.length].
    set (n := String.length filename).
    set (stop := Z.to_nat
                   (if Z.of_nat n - Z.of_nat 7 <? 0
                    then Z.max 0 (Z.of_nat n - Z.of_nat 7 + Z.of_nat n)
                    else Z.min (Z.of_nat n - Z.of_nat 7) (Z.of_nat n))).
    destruct (substring_0_split stop filename) as (dropped & E & L).
    exists dropped. split; [exact E |]. split.
    + intros H7.
      assert (Hs : stop = (n - 7)%nat).
      { subst stop.
        replace (Z.of_nat n - Z.of_nat 7 <? 0) with false
          by (symmetry; apply Z.ltb_ge; lia).
        lia. }
      apply (f_equal String.length) in E.
      rewrite length_append, L, Hs in E. fold n in E. lia.
    + intros H3.
      assert (Hs : stop = 0%nat).
      { subst stop.
        replace (Z.of_nat n - Z.of_nat 7 <? 0) with true
          by (symmetry; apply Z.ltb_lt; lia).
        lia. }
      rewrite Hs. destruct filename; reflexivity.
Qed.

(** ** grep_memoryuse *)

Lemma span_all (p : ascii -> bool) (s : string) (c : ascii) (t : string) :
  all_chars p s = true -> p c = false ->
  span p (s ++ String c t) = (s, String c t).
Proof.
  intros Hs Hc. induction s as [| a s IH]; cbn.
  - rewrite Hc. reflexivity.
  - cbn in Hs. apply andb_true_iff in Hs as [Ha Hs].
    rewrite Ha, (IH Hs). reflexivity.
Qed.

Lemma digits_of_uint (d : Decimal.uint) :
  all_chars is_digit (NilEmpty.string_of_uint d) = true.
Proof. induction d; cbn; try rewrite IHd; reflexivity. Qed.

(** The decimal text of a number that is not negative: digits only, at
    least one, read back as the number. *)
Lemma str_nonnegative (n : Z) :
  0 <= n ->
  all_chars is_digit (str n) = true /\
  (exists c rest, str n = String c rest /\ is_digit c = true) /\
  int_of_digits (str n) = n.
Proof.
  intros Hn. unfold str, int_of_digits.
  assert (Hd : exists d, Z.to_int n = Decimal.Pos d /\ d <> Decimal.Nil).
  { destruct n as [| p | p]; [| | lia].
    - exists (Decimal.D0 Decimal.Nil). split; [reflexivity | discriminate].
    - exists (Pos.to_uint p). split; [reflexivity |].
      apply Unsigned.to_uint_nonnil. }
  destruct Hd as (d & E & Hnil).
  pose proof (DecimalZ.of_to n) as Hof. rewrite E in *.
  cbn [NilZero.string_of_int Z.of_int] in *.
  assert (Es : NilZero.string_of_uint d = NilEmpty.string_of_uint d).
  { destruct d; try reflexivity. contradiction. }
  rewrite Es. pose proof (digits_of_uint d) as Hall.
  split; [exact Hall |]. split.
  - destruct d; try contradiction; cbn; eexists; eexists;
      split; reflexivity.
  - rewrite NilEmpty.usu. exact Hof.
Qed.

Lemma digit_not_blank (c : ascii) : is_digit c = true -> is_blank c = false.
Proof.
  unfold is_digit, is_blank. intros H.
  apply andb_true_iff in H as [H1 H2].
  apply Nat.leb_le in H1, H2.
  apply orb_false_iff. split; apply Nat.eqb_neq; lia.
Qed.

(** The groups found in a line written as the kernel writes it. *)
Lemma search_vmhwm_line (n : Z) :
  0 <= n -> search_vmhwm (vmhwm_line n) = Some (str n, "kB").
Proof.
  intros Hn.
  destruct (str_nonnegative n Hn) as (Hall & (c & rest & E & Hc) & _).
  unfold search_vmhwm, vmhwm_line.
  cbn [append strip_prefix Ascii.eqb Bool.eqb].
  set (tail := String " " (String "k" (String "B"
                 (String (ascii_of_nat 10) "")))).
  cbn [span]. change (is_blank (ascii_of_nat 9)) with true. cbv iota.
  assert (Hb : span is_blank (str n ++ tail) = ("", (str n ++ tail)%string)).
  { rewrite E. cbn [append span]. rewrite (digit_not_blank c Hc). reflexivity. }
  rewrite Hb.
  unfold tail at 1.
  rewrite (span_all is_digit (str n) " " _ Hall eq_refl).
  rewrite E. reflexivity.
Qed.

Lemma grep_memoryuse_lines_readable (logfile : string)
    (lines rest : list string) (result : option Z) :
  forallb readable lines = true ->
  exists result',
    grep_memoryuse_lines logfile (lines ++ rest) result =
    grep_memoryuse_lines logfile rest result'.
Proof.
  revert result. induction lines as [| line lines IH]; intros result H.
  - exists result. reflexivity.
  - cbn in H. apply andb_true_iff in H as [Hl H].
    cbn [List.app grep_memoryuse_lines]. unfold readable in Hl.
    destruct (search_vmhwm line) as [[digits unit] |]; [| apply IH; exact H].
    destruct (String.eqb unit "kB"); [apply IH; exact H |].
    cbn in Hl. rewrite Hl. cbn [negb]. apply IH. exact H.
Qed.

Lemma grep_memoryuse_lines_unmatched (logfile : string)
    (lines : list string) (result : option Z) :
  forallb unmatched lines = true ->
  grep_memoryuse_lines logfile lines result =
  grep_memoryuse_lines logfile [] result.
Proof.
  induction lines as [| line lines IH]; intros H; [reflexivity |].
  cbn in H. apply andb_true_iff in H as [Hl H].
  cbn [grep_memoryuse_lines]. unfold unmatched in Hl.
  destruct (search_vmhwm line); [discriminate Hl | apply IH; exact H].
Qed.

(** X16.  [grep_memoryuse] returns the peak resident set size in bytes:
    when the last line that matches is the kernel's line for [n]
    kilobytes, and the lines before it can be read, the result is
    [n * 1024], whatever values the earlier lines gave. *)
Theorem grep_memoryuse_kilobytes (logfile : string)
    (before after : list string) (n : Z) :
  0 <= n ->
  forallb readable before = true ->
  forallb unmatched after = true ->
  grep_memoryuse logfile (before ++ vmhwm_line n :: after)
    = Returned (n * 1024).
Proof.
  intros Hn Hb Ha. unfold grep_memoryuse.
  destruct (grep_memoryuse_lines_readable logfile before
              (vmhwm_line n :: after) None Hb) as (result & ->).
  cbn [grep_memoryuse_lines]. rewrite (search_vmhwm_line n Hn).
  cbn [String.eqb Ascii.eqb Bool.eqb andb].
  rewrite (grep_memoryuse_lines_unmatched logfile after _ Ha).
  destruct (str_nonnegative n Hn) as (_ & _ & ->). reflexivity.
Qed.

Lemma grep_memoryuse_kilobytes_witness :
  grep_memoryuse "/proc/self/status"
    (["Name:   java"; "VmHWM:     512 kB"] ++
     vmhwm_line 1234 :: ["VmRSS:      1000 kB"])
  = Returned (1234 * 1024).
Proof.
  apply (grep_memoryuse_kilobytes "/proc/self/status"
           ["Name:   java"; "VmHWM:     512 kB"] ["VmRSS:      1000 kB"] 1234);
    [lia | reflexivity | reflexivity].
Defined.

(** X17.  [grep_memoryuse] raises when no line matches, and it raises at
    the first line whose unit is neither [kB] nor empty, whatever the
    lines after it and the values read before it. *)
Theorem grep_memoryuse_raises (logfile : string)
    (before after : list string) (line digits unit : string) :
  (forallb unmatched before = true ->
   grep_memoryuse logfile before =
     Raised ("No memory usage found in log: " ++ logfile)) /\
  (forallb readable before = true ->
   search_vmhwm line = Some (digits, unit) ->
   unit <> "kB" -> unit <> "" ->
   grep_memoryuse logfile (before ++ line :: after) =
     Raised ("Unrecognized unit in memory usage log: " ++ unit)).
Proof.
  unfold grep_memoryuse. split.
  - intros H. rewrite (grep_memoryuse_lines_unmatched logfile before None H).
    reflexivity.
  - intros Hb Hs Hk He.
    destruct (grep_memoryuse_lines_readable logfile before
                (line :: after) None Hb) as (result & ->).
    cbn [grep_memoryuse_lines]. rewrite Hs.
    apply String.eqb_neq in Hk, He. rewrite Hk, He. reflexivity.
Qed.

(** ** RunCmd *)

Lemma rstrip_idempotent (s : string) : rstrip (rstrip s) = rstrip s.
Proof.
  induction s as [| c s IH]; [reflexivity |].
  cbn [rstrip]. destruct (rstrip s) as [| d k] eqn:E.
  - destruct (is_space c) eqn:Hc; [reflexivity |].
    cbn [rstrip]. rewrite Hc. reflexivity.
  - cbn [rstrip] in *. rewrite IH. reflexivity.
Qed.

(** The result of the reading loop, and what a logger that is not quiet
    has written by its end. *)
Lemma RunCmd_loop_result (cmd : list string) (exit_code : option Z)
    (lines : list string) :
  Forall (fun line => line <> "") lines ->
  forall stdout logger failed written,
    let stripped := stdout ++ map rstrip lines in
    let failing :=
      truthy exit_code || (failed || existsb failure_line (map rstrip lines)) in
    fst (RunCmd_loop cmd lines exit_code stdout logger failed written) =
      (if failing
       then CalledProcessError exit_code cmd (join newline stripped)
       else Stdout stripped) /\
    (ProgressLogger.quiet logger = false ->
     snd (RunCmd_loop cmd lines exit_code stdout logger failed written) =
       written ++ map print (map rstrip lines) ++
       (if failing then flat_map Warn stripped else [])).
Proof.
  induction 1 as [| line lines Hne _ IH];
    intros stdout logger failed written; cbv zeta.
  - cbn [RunCmd_loop map existsb]. rewrite app_nil_r, orb_false_r.
    destruct (truthy exit_code || failed); cbn [fst snd]; split;
      try reflexivity; intros Q; unfold ProgressLogger.done; rewrite Q;
      cbn [andb List.app]; rewrite app_nil_r; reflexivity.
  - destruct line as [| c l]; [contradiction |].
    cbn [RunCmd_loop map existsb]. unfold ProgressLogger.log.
    match goal with |- context [RunCmd_loop _ _ _ ?so ?lg ?fl ?wr] =>
      destruct (IH so lg fl wr) as [Hres Hwr] end.
    cbv zeta in Hres, Hwr. rewrite <- app_assoc in Hres, Hwr.
    cbn [List.app] in Hres, Hwr. rewrite <- orb_assoc in Hres, Hwr.
    split; [exact Hres |].
    intros Q. rewrite Hwr by exact Q. rewrite Q. cbn [andb List.app].
    rewrite <- app_assoc. reflexivity.
Qed.

(** X18.  [RunCmd] raises [CalledProcessError] exactly when the exit code
    is not 0 or a line of the output mentions an assertion or compilation
    failure, even with the exit code 0; otherwise it returns the lines
    of the output without their trailing white space.  When it is not
    quiet it prints the command, then each line, and on failure all lines
    again as warnings. *)
Theorem RunCmd_fails_on_exit_code_or_output (cmd : list string)
    (env_vars : list (string * string)) (quiet : bool)
    (lines : list string) (exit_code : option Z) :
  Forall (fun line => line <> "") lines ->
  let stripped := map rstrip lines in
  let failing := truthy exit_code || existsb failure_line stripped in
  fst (RunCmd cmd env_vars quiet lines exit_code) =
    (if failing
     then CalledProcessError exit_code cmd (join newline stripped)
     else Stdout stripped) /\
  Forall (fun line => rstrip line = line) stripped /\
  snd (RunCmd cmd env_vars false lines exit_code) =
    PrintCmd cmd env_vars false ++ map print stripped ++
    (if failing then flat_map Warn stripped else []).
Proof.
  intros Hne. cbv zeta. unfold RunCmd.
  destruct (RunCmd_loop_result cmd exit_code lines Hne []
              (ProgressLogger.init quiet) false (PrintCmd cmd env_vars quiet))
    as [Hres _].
  destruct (RunCmd_loop_result cmd exit_code lines Hne []
              (ProgressLogger.init false) false (PrintCmd cmd env_vars false))
    as [_ Hwr].
  cbv zeta in Hres, Hwr. cbn [List.app orb] in Hres, Hwr.
  split; [exact Hres |]. split; [| exact (Hwr eq_refl)].
  apply Forall_forall. intros line Hin. apply in_map_iff in Hin.
  destruct Hin as (raw & <- & _). apply rstrip_idempotent.
Qed.

Lemma RunCmd_fails_on_exit_code_or_output_witness :
  let lines := [("Compiling  " ++ newline)%string;
                ("Compilation failed" ++ newline)%string] in
  fst (RunCmd ["java"; "-jar"; "r8.jar"] [] true lines (Some 0)) =
    CalledProcessError (Some 0) ["java"; "-jar"; "r8.jar"]
      ("Compiling" ++ newline ++ "Compilation failed")%string.
Proof.
  intros lines.
  destruct (RunCmd_fails_on_exit_code_or_output ["java"; "-jar"; "r8.jar"] []
              true lines (Some 0)) as [E _].
  - repeat constructor; discriminate.
  - rewrite E. reflexivity.
Defined.

